(** * Youtube-Notes: the note-generation pipeline

    A shallow embedding of the four programs of the repository that make up
    the pipeline:

    - [get_transcript.py], the helper process that fetches a transcript;
    - [index.js], the Express route [GET /transcript];
    - [content.js], the page-context listener relaying a request to the
      backend;
    - [popup.js], the popup whose callback stores and renders the notes.

    Everything outside the repository (the transcript API, the shell behind
    [exec], [JSON.parse], the generative model, [fetch], the markdown
    renderer, the extension messaging layer) is a parameter of the model: a
    function giving the outcome of each call.  Strings are Rocq strings, their
    characters read as code points below 256. *)

From Stdlib Require Import String Ascii List Bool Arith Lia.
From stdpp Require Import base option gmap strings list fin_maps.

Local Open Scope string_scope.

(** ** JavaScript and Python values used by the programs *)

(** The line feed that [print] appends and that the prompt contains. *)
Definition nl : string := String (ascii_of_nat 10) EmptyString.

(** The double quote and the backslash, built from their codes. *)
Definition dquote : ascii := ascii_of_nat 34.
Definition backslash : ascii := ascii_of_nat 92.

(** A JavaScript object with the three properties the programs read and
    write.  [None] is a missing property ([undefined]); every property that is
    present holds a string. *)
Record Obj : Type := mkObj {
  notes : option string;
  videoId : option string;
  error : option string
}.

#[global] Instance Obj_eq_dec : EqDecision Obj.
Proof. solve_decision. Defined.

(** [{ error: msg }] *)
Definition error_obj (msg : string) : Obj :=
  {| notes := None; videoId := None; error := Some msg |}.

(** [{ notes: n, videoId: v }] *)
Definition notes_obj (n v : string) : Obj :=
  {| notes := Some n; videoId := Some v; error := None |}.

(** [{ notes: n }] *)
Definition notes_only_obj (n : string) : Obj :=
  {| notes := Some n; videoId := None; error := None |}.

(** Truthiness of a value that is [undefined]/[null] or a string: only a
    non-empty string is truthy. *)
Definition truthy (v : option string) : bool :=
  match v with
  | None => false
  | Some EmptyString => false
  | Some (String _ _) => true
  end.

(** [a || b] on such values, with a string on the right. *)
Definition js_or (a : option string) (b : string) : string :=
  match a with
  | Some (String c s) => String c s
  | _ => b
  end.

(** White space and line terminators that [String.prototype.trim] removes,
    among the code points below 256: TAB, LF, VT, FF, CR, SPACE and the
    no-break space. *)
Definition is_space (c : ascii) : bool :=
  let n := nat_of_ascii c in
  (((9 <=? n) && (n <=? 13)) || (n =? 32) || (n =? 160))%nat.

Fixpoint trim_start (s : string) : string :=
  match s with
  | String c r => if is_space c then trim_start r else s
  | EmptyString => EmptyString
  end.

(** Removes trailing white space: a character is dropped when it is white
    space and nothing but white space follows it. *)
Fixpoint trim_end (s : string) : string :=
  match s with
  | EmptyString => EmptyString
  | String c r =>
      match trim_end r with
      | EmptyString => if is_space c then EmptyString else String c EmptyString
      | r' => String c r'
      end
  end.

Definition trim (s : string) : string := trim_end (trim_start s).

(** ** A monad for handlers: state, exceptions and calls that never return

    A handler runs over a state [S] (what it has logged, sent or stored).  It
    completes normally, throws, or waits for ever on a callback or a promise
    that never settles. *)

Inductive Completion (A : Type) : Type :=
| Normal (a : A)
| Throws (exn : string)
| Never.
Arguments Normal {A} a.
Arguments Throws {A} exn.
Arguments Never {A}.

Definition Eff (S A : Type) : Type := S -> Completion A * S.

Definition ret {S A} (a : A) : Eff S A := fun s => (Normal a, s).

Definition bind {S A B} (m : Eff S A) (k : A -> Eff S B) : Eff S B :=
  fun s =>
    match m s with
    | (Normal a, s') => k a s'
    | (Throws e, s') => (Throws e, s')
    | (Never, s') => (Never, s')
    end.

Definition throw {S A} (e : string) : Eff S A := fun s => (Throws e, s).

Definition never {S A} : Eff S A := fun s => (Never, s).

Definition modify {S} (f : S -> S) : Eff S unit := fun s => (Normal tt, f s).

Definition get {S} : Eff S S := fun s => (Normal s, s).

(** [try { body } catch (e) { handler e }] *)
Definition try_catch {S A} (body : Eff S A) (handler : string -> Eff S A) : Eff S A :=
  fun s =>
    match body s with
    | (Throws e, s') => handler e s'
    | r => r
    end.

Declare Scope eff_scope.
Delimit Scope eff_scope with eff.
Notation "x <- m ;; k" := (bind m (fun x => k))
  (at level 100, m at next level, right associativity) : eff_scope.
Notation "m ;;; k" := (bind m (fun _ => k))
  (at level 100, right associativity) : eff_scope.

(** ** [get_transcript.py]: the helper process *)

Module Helper.

(** Lower-case hexadecimal digit of a number below 16, as [format(n, 'x')]. *)
Definition hex_digit (n : nat) : ascii :=
  if (n <? 10)%nat then ascii_of_nat (48 + n) else ascii_of_nat (87 + n).

(** What [json.dumps] (with its default [ensure_ascii=True]) writes for one
    character: the short escapes of the backslash, the quote, BS, FF, LF, CR
    and TAB; the character itself from SPACE to [~]; a [\u00xx] escape for
    every other code point below 256. *)
Definition escape_char (c : ascii) : string :=
  let n := nat_of_ascii c in
  if (n =? 92)%nat then String backslash (String backslash EmptyString)
  else if (n =? 34)%nat then String backslash (String dquote EmptyString)
  else if (n =? 8)%nat then String backslash "b"
  else if (n =? 12)%nat then String backslash "f"
  else if (n =? 10)%nat then String backslash "n"
  else if (n =? 13)%nat then String backslash "r"
  else if (n =? 9)%nat then String backslash "t"
  else if ((32 <=? n) && (n <=? 126))%nat then String c EmptyString
  else String backslash
         ("u00" +:+ String (hex_digit (n / 16)) (String (hex_digit (n mod 16)) EmptyString)).

Fixpoint escape (s : string) : string :=
  match s with
  | EmptyString => EmptyString
  | String c r => escape_char c +:+ escape r
  end.

(** [json.dumps(s)] for a string [s]. *)
Definition json_dumps (s : string) : string :=
  String dquote (escape s +:+ String dquote EmptyString).

(** An entry of the list [YouTubeTranscriptApi.get_transcript] returns; the
    script reads its ['text'] key only. *)
Record Entry : Type := mkEntry { text : string }.

(** Outcome of [YouTubeTranscriptApi.get_transcript(video_id)]: the list of
    entries in time order, or an exception with its [str(e)]. *)
Inductive ApiOutcome : Type :=
| Returns (transcript : list Entry)
| Raises (e : string).

(** What the parent process observes of the helper. *)
Record Process : Type := mkProcess {
  exit_code : nat;
  stdout : string;
  stderr : string
}.

(** [" ".join([entry['text'] for entry in transcript])] *)
Definition texts (transcript : list Entry) : string :=
  String.concat " " (map text transcript).

(** The script, run with [sys.argv = argv] over a transcript API.  Without a
    second argument, [sys.argv[1]] raises [IndexError] before the [try]: the
    interpreter prints a traceback (its last line is kept here) and exits
    with status 1. *)
Definition get_transcript_py
    (get_transcript : string -> ApiOutcome) (argv : list string) : Process :=
  match argv with
  | _ :: video_id :: _ =>
      match get_transcript video_id with
      | Returns transcript =>
          {| exit_code := 0;
             stdout := json_dumps (texts transcript) +:+ nl;
             stderr := EmptyString |}
      | Raises e =>
          {| exit_code := 1;
             stdout := EmptyString;
             stderr := "Error: " +:+ e +:+ nl |}
      end
  | _ =>
      {| exit_code := 1;
         stdout := EmptyString;
         stderr := "IndexError: list index out of range" +:+ nl |}
  end.

End Helper.

(** ** Decoding a JSON string literal

    The part of [JSON.parse] that the helper's output exercises: a document
    that is one string literal.  Characters from SPACE on stand for
    themselves, the quote ends the literal, and a backslash starts one of the
    escapes of the JSON grammar.  The result is [None] for a text that is not
    such a literal or that names a code point above 255. *)

Definition hex_value (c : ascii) : option nat :=
  let n := nat_of_ascii c in
  if ((48 <=? n) && (n <=? 57))%nat then Some (n - 48)
  else if ((97 <=? n) && (n <=? 102))%nat then Some (n - 87)
  else if ((65 <=? n) && (n <=? 70))%nat then Some (n - 55)
  else None.

Definition hex4 (a b c d : ascii) : option nat :=
  match hex_value a, hex_value b, hex_value c, hex_value d with
  | Some x, Some y, Some z, Some w => Some (((x * 16 + y) * 16 + z) * 16 + w)
  | _, _, _, _ => None
  end.

(** The character a one-letter escape stands for. *)
Definition simple_escape (e : ascii) : option ascii :=
  let n := nat_of_ascii e in
  if (n =? 34)%nat then Some dquote
  else if (n =? 92)%nat then Some backslash
  else if (n =? 47)%nat then Some "/"%char
  else if (n =? 98)%nat then Some (ascii_of_nat 8)
  else if (n =? 102)%nat then Some (ascii_of_nat 12)
  else if (n =? 110)%nat then Some (ascii_of_nat 10)
  else if (n =? 114)%nat then Some (ascii_of_nat 13)
  else if (n =? 116)%nat then Some (ascii_of_nat 9)
  else None.

(** Decodes the characters after the opening quote, up to the closing quote,
    which must end the text. *)
Fixpoint unescape (s : string) : option string :=
  match s with
  | EmptyString => None
  | String c r =>
      if Ascii.eqb c dquote then
        match r with EmptyString => Some EmptyString | String _ _ => None end
      else if Ascii.eqb c backslash then
        match r with
        | EmptyString => None
        | String e r1 =>
            match simple_escape e with
            | Some d => option_map (String d) (unescape r1)
            | None =>
                if Ascii.eqb e "u"%char then
                  match r1 with
                  | String h1 (String h2 (String h3 (String h4 r2))) =>
                      match hex4 h1 h2 h3 h4 with
                      | Some n =>
                          if (n <? 256)%nat
                          then option_map (String (ascii_of_nat n)) (unescape r2)
                          else None
                      | None => None
                      end
                  | _ => None
                  end
                else None
            end
        end
      else if (nat_of_ascii c <? 32)%nat then None
      else option_map (String c) (unescape r)
  end.

Definition parse_string_literal (s : string) : option string :=
  match s with
  | String c r => if Ascii.eqb c dquote then unescape r else None
  | EmptyString => None
  end.

(** The conversion of a string or [undefined] to a string, as a template
    literal [`${v}`] or a computed property key [[v]] does it. *)
Definition template (v : option string) : string :=
  match v with
  | Some s => s
  | None => "undefined"
  end.

(** ** [index.js]: the route [GET /transcript] *)

Module Server.

Local Open Scope eff_scope.

(** The repository documents the route twice.  The two listings differ in
    the object of the success response only: [res.json({ notes: summary })]
    in [AI_Notes_Chrome_Extension_Documentation.md] and
    [res.json({ notes: summary, videoId })] in the comprehensive
    documentation. *)
Inductive Listing : Type :=
| NotesOnly
| NotesAndVideoId.

(** What [exec(command, callback)] leads to: the callback is called with
    [(error, stdout, stderr)], [error] being [null] when the process exited
    with status 0; or the process never exits and the callback is never
    called ([exec] is given no options, hence no timeout). *)
Inductive ExecOutcome : Type :=
| ExecCallback (error : option string) (stdout stderr : string)
| ExecPending.

(** What [model.generateContent(prompt)], [await result.response] and
    [response.text()] lead to: the text, an exception or rejection, or a
    promise that never settles. *)
Inductive GenOutcome : Type :=
| GenText (summary : string)
| GenThrows (apiError : string)
| GenPending.

(** The world around the route.  [JSON_parse s] is [None] when
    [JSON.parse(s)] throws [SyntaxError], and otherwise the parsed value as
    the template literal of the prompt renders it. *)
Record Host : Type := mkHost {
  exec : string -> ExecOutcome;
  JSON_parse : string -> option string;
  generateContent : string -> string -> GenOutcome
}.

(** The calls the route makes to the outside, in order. *)
Inductive Event : Type :=
| Exec (command : string)
| GenerateContent (model prompt : string)
| ConsoleError (label detail : string).

Record Response : Type := mkResponse {
  status : nat;
  body : Obj
}.

Record St : Type := mkSt {
  calls : list Event;
  sent : option Response
}.

Definition initial : St := {| calls := []; sent := None |}.

Definition emit (ev : Event) : Eff St unit :=
  modify (fun s => {| calls := calls s ++ [ev]; sent := sent s |}).

(** [res.status(code).json(b)]; Express throws when a response has already
    been sent. *)
Definition res_status_json (code : nat) (b : Obj) : Eff St unit :=
  s <- get ;;
  match sent s with
  | None =>
      modify (fun s => {| calls := calls s;
                          sent := Some {| status := code; body := b |} |})
  | Some _ => throw "ERR_HTTP_HEADERS_SENT"
  end.

(** [res.json(b)]: status 200. *)
Definition res_json (b : Obj) : Eff St unit := res_status_json 200 b.

Definition console_error (label detail : string) : Eff St unit :=
  emit (ConsoleError label detail).

Definition call_exec (h : Host) (command : string)
  : Eff St (option string * string * string) :=
  emit (Exec command) ;;;
  match exec h command with
  | ExecCallback error stdout stderr => ret (error, stdout, stderr)
  | ExecPending => never
  end.

Definition call_JSON_parse (h : Host) (s : string) : Eff St string :=
  match JSON_parse h s with
  | Some v => ret v
  | None => throw "SyntaxError"
  end.

Definition call_generateContent (h : Host) (model prompt : string)
  : Eff St string :=
  emit (GenerateContent model prompt) ;;;
  match generateContent h model prompt with
  | GenText summary => ret summary
  | GenThrows apiError => throw apiError
  | GenPending => never
  end.

(** [`python get_transcript.py ${videoId}`] *)
Definition command_of (videoId : option string) : string :=
  "python get_transcript.py " +:+ template videoId.

Definition model_name : string := "gemini-2.0-flash".

Definition prompt_of (transcript : string) : string :=
  "Summarize the following YouTube transcript into short, clear bullet-point notes:"
  +:+ nl +:+ nl +:+ transcript.

(** The object of the success response, by listing. *)
Definition success_body (l : Listing) (summary : string) (videoId : option string) : Obj :=
  match l with
  | NotesOnly => {| notes := Some summary; videoId := None; error := None |}
  | NotesAndVideoId => {| notes := Some summary; videoId := videoId; error := None |}
  end.

(** The handler of [app.get('/transcript', ...)], for a request whose
    [req.query.videoId] is the string [videoId], or [None] when the parameter
    is absent.  (A parameter repeated in the query, which Express parses to
    an array, is outside the model.) *)
Definition transcript_route (l : Listing) (h : Host) (videoId : option string)
  : Eff St unit :=
  if negb (truthy videoId) then
    res_status_json 400 (error_obj "videoId is required")
  else
    r <- call_exec h (command_of videoId) ;;
    let '(error, stdout, stderr) := r in
    match error with
    | Some _ =>
        console_error "Python Error:" stderr ;;;
        res_status_json 500 (error_obj "Failed to fetch transcript")
    | None =>
        transcript <- call_JSON_parse h (trim stdout) ;;
        try_catch
          (summary <- call_generateContent h model_name (prompt_of transcript) ;;
           res_json (success_body l summary videoId))
          (fun apiError =>
             console_error "Gemini API Error:" apiError ;;;
             res_status_json 500 (error_obj "Failed to generate notes using Gemini"))
    end.

(** One request, from a fresh response object. *)
Definition handle (l : Listing) (h : Host) (videoId : option string)
  : Completion unit * St :=
  transcript_route l h videoId initial.

Definition is_generate (ev : Event) : bool :=
  match ev with GenerateContent _ _ => true | _ => false end.

Definition is_exec (ev : Event) : bool :=
  match ev with Exec _ => true | _ => false end.

(** Number of calls to the helper and to the generative model in a run. *)
Definition exec_calls (s : St) : nat := length (List.filter is_exec (calls s)).
Definition generate_calls (s : St) : nat := length (List.filter is_generate (calls s)).

End Server.

(** ** [content.js]: the listener in the page *)

Module Bridge.

(** What [fetch(url).then(res => res.json())] leads to: the parsed body
    ([None] for the JSON value [null], which has no properties), a rejection
    (network failure, or a body that is not JSON), or a promise that never
    settles ([fetch] is given no abort signal). *)
Inductive FetchOutcome : Type :=
| FetchData (data : option Obj)
| FetchRejects (err : string)
| FetchPending.

(** The page the script runs in: the parameters of [window.location.search]
    as [URLSearchParams] holds them, in order, and the network. *)
Record Page : Type := mkPage {
  location_search : list (string * string);
  fetch : string -> FetchOutcome
}.

(** [urlParams.get(name)]: the value of the first parameter of that name, or
    [null]. *)
Definition URLSearchParams_get (name : string) (params : list (string * string))
  : option string :=
  option_map snd (List.find (fun p => String.eqb (fst p) name) params).

Record Message : Type := mkMessage { action : string }.

(** What a run of the listener does: the URLs it fetched, the object it
    passed to [sendResponse] (if it called it), and whether it returned
    [true] to keep the channel open. *)
Record Run : Type := mkRun {
  fetched : list string;
  responded : option Obj;
  returned_true : bool
}.

Definition url_of (videoId : string) : string :=
  "http://localhost:3000/transcript?videoId=" +:+ videoId.

(** The second [.then]: [data.notes] of [null] throws [TypeError], which the
    [.catch] turns into the backend error. *)
Definition on_data (videoId : string) (data : option Obj) : Obj :=
  match data with
  | Some d =>
      if truthy (notes d)
      then {| notes := notes d; videoId := Some videoId; error := None |}
      else error_obj (js_or (error d) "No notes returned.")
  | None => error_obj "Backend error."
  end.

(** The listener.  Past the guard [!videoId] the id is a string, which
    [template] returns as it is. *)
Definition onMessage (pg : Page) (message : Message) : Run :=
  if String.eqb (action message) "getTranscript" then
    let videoId := URLSearchParams_get "v" (location_search pg) in
    if negb (truthy videoId) then
      {| fetched := [];
         responded := Some (error_obj "No video ID found");
         returned_true := false |}
    else
      let url := url_of (template videoId) in
      {| fetched := [url];
         responded :=
           match fetch pg url with
           | FetchData data => Some (on_data (template videoId) data)
           | FetchRejects _ => Some (error_obj "Backend error.")
           | FetchPending => None
           end;
         returned_true := true |}
  else
    {| fetched := []; responded := None; returned_true := false |}.

End Bridge.

(** ** [popup.js]: the popup *)

Module Popup.

Local Open Scope eff_scope.

(** The content of the [notesOutput] element, as last assigned. *)
Inductive Output : Type :=
| InnerHTML (html : string)
| InnerText (text : string).

(** The popup: [chrome.storage.local], the calls made to its [set], and the
    elements the handlers touch. *)
Record St : Type := mkSt {
  storage : gmap string string;
  set_calls : list (string * string);
  notesOutput : Output;
  loading_display : string;
  generate_disabled : bool;
  download_hidden : bool
}.

(** [chrome.storage.local.set({ [key]: value })] *)
Definition storage_local_set (key value : string) : Eff St unit :=
  modify (fun s => {| storage := <[ key := value ]> (storage s);
                      set_calls := set_calls s ++ [(key, value)];
                      notesOutput := notesOutput s;
                      loading_display := loading_display s;
                      generate_disabled := generate_disabled s;
                      download_hidden := download_hidden s |}).

Definition set_notesOutput (o : Output) : Eff St unit :=
  modify (fun s => {| storage := storage s; set_calls := set_calls s;
                      notesOutput := o;
                      loading_display := loading_display s;
                      generate_disabled := generate_disabled s;
                      download_hidden := download_hidden s |}).

Definition set_loading_display (d : string) : Eff St unit :=
  modify (fun s => {| storage := storage s; set_calls := set_calls s;
                      notesOutput := notesOutput s;
                      loading_display := d;
                      generate_disabled := generate_disabled s;
                      download_hidden := download_hidden s |}).

Definition set_generate_disabled (b : bool) : Eff St unit :=
  modify (fun s => {| storage := storage s; set_calls := set_calls s;
                      notesOutput := notesOutput s;
                      loading_display := loading_display s;
                      generate_disabled := b;
                      download_hidden := download_hidden s |}).

Definition set_download_hidden (b : bool) : Eff St unit :=
  modify (fun s => {| storage := storage s; set_calls := set_calls s;
                      notesOutput := notesOutput s;
                      loading_display := loading_display s;
                      generate_disabled := generate_disabled s;
                      download_hidden := b |}).

Section Handlers.

(** [marked.parse], the markdown renderer. *)
Variable marked_parse : string -> string.

(** The start of the click handler of [generateNotes]: reset the UI. *)
Definition reset_ui : Eff St unit :=
  set_notesOutput (InnerHTML EmptyString) ;;;
  set_loading_display "block" ;;;
  set_generate_disabled true ;;;
  set_download_hidden true.

(** The callback given to [chrome.tabs.sendMessage].  [lastError] is the
    message of [chrome.runtime.lastError] when it is set; [response] is
    [None] for [undefined], whose [notes] cannot be read. *)
Definition sendMessage_callback (lastError : option string) (response : option Obj)
  : Eff St unit :=
  set_loading_display "none" ;;;
  set_generate_disabled false ;;;
  match lastError with
  | Some message => set_notesOutput (InnerText ("Error: " +:+ message))
  | None =>
      match response with
      | None => throw "TypeError"
      | Some response =>
          if truthy (notes response) then
            let rawNotes := template (notes response) in
            let htmlNotes := marked_parse rawNotes in
            storage_local_set (template (videoId response)) rawNotes ;;;
            set_notesOutput (InnerHTML htmlNotes) ;;;
            set_download_hidden false
          else if truthy (error response) then
            set_notesOutput (InnerText (template (error response)))
          else ret tt
      end
  end.

(** What the messaging layer hands to the callback: the object the listener
    passed to [sendResponse], an error of the channel, or nothing at all
    while the listener keeps the channel open without answering. *)
Inductive Transport : Type :=
| Answered (response : Obj)
| ChannelError (message : string)
| Silent.

Definition deliver (t : Transport) : Eff St unit :=
  match t with
  | Answered response => sendMessage_callback None (Some response)
  | ChannelError message => sendMessage_callback (Some message) None
  | Silent => never
  end.

(** A click on [generateNotes]. *)
Definition generateNotes_click (t : Transport) : Eff St unit :=
  reset_ui ;;; deliver t.

(** The [DOMContentLoaded] handler, on a tab whose URL has the [v]
    parameter [currentVideoId]. *)
Definition DOMContentLoaded (currentVideoId : string) : Eff St unit :=
  s <- get ;;
  let data := storage s !! currentVideoId in
  if truthy data then
    set_notesOutput (InnerHTML (marked_parse (template data))) ;;;
    set_download_hidden false
  else ret tt.

End Handlers.

(** The transport a run of the page listener gives rise to: its answer when
    it gave one; silence while it keeps the channel open; otherwise the
    channel closes and [chrome.runtime.lastError] is set. *)
Definition transport_of (r : Bridge.Run) : Transport :=
  match Bridge.responded r with
  | Some response => Answered response
  | None =>
      if Bridge.returned_true r then Silent
      else ChannelError "The message port closed before a response was received."
  end.

End Popup.

(** A video id that is missing or empty: what [!videoId] accepts. *)
Definition absent_or_empty (v : option string) : Prop :=
  v = None \/ v = Some EmptyString.

(** ** The helper behind [exec]

    What [exec] reports of a process whose output stays within [maxBuffer]:
    [error] is [null] exactly when the process exited with status 0.  (Past
    [maxBuffer], [exec] ends the process and reports an error whatever its
    status; see [reports_helper].) *)

Definition exec_of_process (p : Helper.Process) : Server.ExecOutcome :=
  Server.ExecCallback
    (if (Helper.exit_code p =? 0)%nat then None else Some "Command failed")
    (Helper.stdout p) (Helper.stderr p).

(** A host for the requests whose id is [video_id], a single word for the
    shell: there the command runs the helper with the one argument
    [video_id].  The host does not look at the command, so it says nothing of
    a request for another id, nor of an id that the shell splits or
    interprets.  Its [JSON.parse] reads string literals, the only JSON the
    helper prints. *)
Definition node_host
    (get_transcript : string -> Helper.ApiOutcome) (video_id : string)
    (gen : string -> string -> Server.GenOutcome) : Server.Host :=
  {| Server.exec := fun _ =>
       exec_of_process
         (Helper.get_transcript_py get_transcript ["get_transcript.py"; video_id]);
     Server.JSON_parse := parse_string_literal;
     Server.generateContent := gen |}.

(** [exec] hands the command to a shell, and the route pastes the id into
    the command as it comes.  For the id [w1;echo w2], two plain words, the
    shell runs the helper with [w1] and then [echo w2]: the outputs follow one
    another and the status is that of [echo], 0. *)
Definition then_echo (p : Helper.Process) (word : string) : Helper.Process :=
  {| Helper.exit_code := 0;
     Helper.stdout := Helper.stdout p +:+ word +:+ nl;
     Helper.stderr := Helper.stderr p |}.

Definition is_digit (c : ascii) : bool :=
  let n := nat_of_ascii c in ((48 <=? n) && (n <=? 57))%nat.

Fixpoint all_digits (s : string) : bool :=
  match s with
  | EmptyString => true
  | String c r => is_digit c && all_digits r
  end.

(** The part of [JSON.parse] for a text that is a natural number written
    with digits only, without a leading zero, of 15 digits at most: the
    number is exact and a template literal renders it by the same digits. *)
Definition parse_integer_literal (s : string) : option string :=
  match s with
  | EmptyString => None
  | String c r =>
      if all_digits s && (String.length s <=? 15)%nat
         && (negb (nat_of_ascii c =? 48)%nat || (String.length s =? 1)%nat)
      then Some s else None
  end.

Definition parse_string_or_integer (s : string) : option string :=
  match parse_string_literal s with
  | Some v => Some v
  | None => parse_integer_literal s
  end.

(** A host for the request whose id is [video_id;echo word]. *)
Definition injected_host
    (get_transcript : string -> Helper.ApiOutcome) (video_id word : string)
    (gen : string -> string -> Server.GenOutcome) : Server.Host :=
  {| Server.exec := fun _ =>
       exec_of_process
         (then_echo
            (Helper.get_transcript_py get_transcript ["get_transcript.py"; video_id])
            word);
     Server.JSON_parse := parse_string_or_integer;
     Server.generateContent := gen |}.

(** [reports_helper h get_transcript maxBuffer id]: on the command of the
    request for [id], [exec] reports what the helper did when run with [id]
    as its one argument.  That is how the shell runs the command when [id] is
    a single word with nothing in it for the shell to interpret.  Within
    [maxBuffer] (a number of bytes; the output is ASCII) the callback gets the
    helper's output, with a null error exactly on status 0; past it, [exec]
    ends the process and reports an error. *)
Definition reports_helper
    (h : Server.Host) (get_transcript : string -> Helper.ApiOutcome)
    (maxBuffer : N) (id : string) : Prop :=
  let p := Helper.get_transcript_py get_transcript ["get_transcript.py"; id] in
  let reported := Server.exec h (Server.command_of (Some id)) in
  if ((N.of_nat (String.length (Helper.stdout p)) <=? maxBuffer)
      && (N.of_nat (String.length (Helper.stderr p)) <=? maxBuffer))%N
  then
    if (Helper.exit_code p =? 0)%nat
    then reported = Server.ExecCallback None (Helper.stdout p) (Helper.stderr p)
    else exists err,
           reported = Server.ExecCallback (Some err) (Helper.stdout p) (Helper.stderr p)
  else exists err stdout stderr,
         reported = Server.ExecCallback (Some err) stdout stderr.

(** ** Scenarios *)

Module Scenario.

(** A video with two caption segments. *)
Definition captions (_ : string) : Helper.ApiOutcome :=
  Helper.Returns [ {| Helper.text := "hello world" |};
                   {| Helper.text := "this is a test" |} ].

(** A video whose transcript has no segment. *)
Definition no_segments (_ : string) : Helper.ApiOutcome := Helper.Returns [].

(** A video with captions disabled. *)
Definition captions_disabled (_ : string) : Helper.ApiOutcome :=
  Helper.Raises "Subtitles are disabled for this video".

Definition summary : string := "- point one" +:+ nl +:+ "- point two".

Definition summarizer (_ _ : string) : Server.GenOutcome := Server.GenText summary.

(** A provider that answers with an empty text. *)
Definition empty_summarizer (_ _ : string) : Server.GenOutcome :=
  Server.GenText EmptyString.

(** A provider that rejects the call for quota. *)
Definition quota_exceeded (_ _ : string) : Server.GenOutcome :=
  Server.GenThrows "[429 Too Many Requests] Resource has been exhausted".

(** A provider that never answers. *)
Definition silent_summarizer (_ _ : string) : Server.GenOutcome := Server.GenPending.

(** A host whose command exits with status 0 after printing a line that is
    not JSON, as the shell does for the id [x;echo hi]. *)
Definition echo_host : Server.Host :=
  {| Server.exec := fun _ =>
       Server.ExecCallback None ("hi" +:+ nl)
         ("Error: Could not retrieve a transcript" +:+ nl);
     Server.JSON_parse := parse_string_literal;
     Server.generateContent := summarizer |}.

(** A host whose helper never exits. *)
Definition hanging_host : Server.Host :=
  {| Server.exec := fun _ => Server.ExecPending;
     Server.JSON_parse := parse_string_literal;
     Server.generateContent := summarizer |}.

Definition getTranscript : Bridge.Message := {| Bridge.action := "getTranscript" |}.

(** A watch page for the video [v] whose backend answers [outcome]. *)
Definition watch_page (v : string) (outcome : Bridge.FetchOutcome) : Bridge.Page :=
  {| Bridge.location_search := [("v", v)];
     Bridge.fetch := fun _ => outcome |}.

(** A page whose URL has no [v] parameter. *)
Definition other_page (outcome : Bridge.FetchOutcome) : Bridge.Page :=
  {| Bridge.location_search := [("list", "PL1")];
     Bridge.fetch := fun _ => outcome |}.

(** A freshly opened popup with an empty store. *)
Definition fresh_popup : Popup.St :=
  {| Popup.storage := ∅;
     Popup.set_calls := [];
     Popup.notesOutput := Popup.InnerHTML EmptyString;
     Popup.loading_display := "none";
     Popup.generate_disabled := false;
     Popup.download_hidden := true |}.

(** A renderer that wraps the text in a paragraph. *)
Definition render (s : string) : string := "<p>" +:+ s +:+ "</p>".

End Scenario.

(** ** [popup.js]: the download button and a popup session *)

Module Download.

(** The file the browser saves: the content of the [Blob], its type and the
    [download] name of the link. *)
Record File : Type := mkFile {
  content : string;
  mime : string;
  filename : string
}.

(** The click handler of [downloadBtn], for the video id of the tab: it
    offers the stored note of that video, if there is one. *)
Definition downloadBtn_click (currentVideoId : string) (st : Popup.St) : option File :=
  let data := Popup.storage st !! currentVideoId in
  if truthy data then
    Some {| content := template data;
            mime := "text/markdown";
            filename := "youtube-notes.md" |}
  else None.

End Download.

Module Session.

(** The popup as [popup.html] declares it, over what [chrome.storage.local]
    holds: empty output, no inline style on the loading element, the
    generate button enabled and the download button hidden. *)
Definition opened (st : Popup.St) : Popup.St :=
  {| Popup.storage := Popup.storage st;
     Popup.set_calls := Popup.set_calls st;
     Popup.notesOutput := Popup.InnerHTML EmptyString;
     Popup.loading_display := EmptyString;
     Popup.generate_disabled := false;
     Popup.download_hidden := true |}.

(** A run that ends without notes in the store: the channel failed, or the
    answer has no notes. *)
Definition failed (t : Popup.Transport) : Prop :=
  match t with
  | Popup.Answered response => truthy (notes response) = false
  | Popup.ChannelError _ => True
  | Popup.Silent => False
  end.

Section Steps.

Variable marked_parse : string -> string.

(** The tab's video id, which the popup reads at [DOMContentLoaded] and the
    page listener reads from its own URL. *)
Variable currentVideoId : string.

(** What can happen to the popup while the tab stays on one video: it is
    (re)opened; the generate button, when enabled, is clicked and the page
    listener runs; or it is clicked and the channel fails. *)
Inductive step : Popup.St -> Popup.St -> Prop :=
| step_open (st : Popup.St) :
    step st (snd (Popup.DOMContentLoaded marked_parse currentVideoId (opened st)))
| step_generate (pg : Bridge.Page) (st : Popup.St) :
    Bridge.URLSearchParams_get "v" (Bridge.location_search pg) = Some currentVideoId ->
    Popup.generate_disabled st = false ->
    step st
      (snd (Popup.generateNotes_click marked_parse
              (Popup.transport_of (Bridge.onMessage pg {| Bridge.action := "getTranscript" |}))
              st))
| step_channel_error (message : string) (st : Popup.St) :
    Popup.generate_disabled st = false ->
    step st (snd (Popup.generateNotes_click marked_parse (Popup.ChannelError message) st)).

(** The popup shows a stored, non-empty note of the tab's video, which the
    download button serves. *)
Definition shows_stored_note (st : Popup.St) : Prop :=
  exists note,
    note <> EmptyString
    /\ Popup.storage st !! currentVideoId = Some note
    /\ Popup.notesOutput st = Popup.InnerHTML (marked_parse note)
    /\ Download.downloadBtn_click currentVideoId st
       = Some {| Download.content := note;
                 Download.mime := "text/markdown";
                 Download.filename := "youtube-notes.md" |}.

(** The states a session reaches from a freshly opened popup. *)
Inductive reachable (st0 : Popup.St) : Popup.St -> Prop :=
| reach_open :
    reachable st0 (snd (Popup.DOMContentLoaded marked_parse currentVideoId (opened st0)))
| reach_step (st st' : Popup.St) :
    reachable st0 st -> step st st' -> reachable st0 st'.

End Steps.

End Session.

(** Characters that a line of output may hold as they are: SPACE to [~]. *)
Definition printable (c : ascii) : bool :=
  let n := nat_of_ascii c in ((32 <=? n) && (n <=? 126))%nat.

Fixpoint all_chars (p : ascii -> bool) (s : string) : bool :=
  match s with
  | EmptyString => true
  | String c r => p c && all_chars p r
  end.

(** * Properties *)

(** ** Strings *)

Lemma append_cons (x : ascii) (a b : string) :
  String x a +:+ b = String x (a +:+ b).
Proof. reflexivity. Qed.

Lemma append_nil (b : string) : EmptyString +:+ b = b.
Proof. reflexivity. Qed.

Lemma append_assoc (a b c : string) : (a +:+ b) +:+ c = a +:+ (b +:+ c).
Proof.
  induction a as [|x a IH]; [reflexivity|].
  rewrite !append_cons. now rewrite IH.
Qed.

Lemma truthy_Some_inv (v : option string) :
  truthy v = true -> exists c r, v = Some (String c r).
Proof. destruct v as [[|c r]|]; simpl; intros H; try discriminate; eauto. Qed.

Lemma truthy_template (v : option string) :
  truthy v = true -> v = Some (template v).
Proof. intros H. destruct (truthy_Some_inv v H) as (c & r & ->). reflexivity. Qed.

Lemma not_truthy_cases (v : option string) :
  truthy v = false <-> v = None \/ v = Some EmptyString.
Proof.
  destruct v as [[|c r]|]; simpl; split; intros H; auto; try discriminate.
  destruct H as [H|H]; discriminate.
Qed.

(** ** The helper's output decodes to the joined text *)

Lemma unescape_escape_char (c : ascii) (rest : string) :
  unescape (Helper.escape_char c +:+ rest) = option_map (String c) (unescape rest).
Proof.
  destruct c as [[] [] [] [] [] [] [] []]; reflexivity.
Qed.

Lemma unescape_escape (s : string) :
  unescape (Helper.escape s +:+ String dquote EmptyString) = Some s.
Proof.
  induction s as [|c s IH].
  - reflexivity.
  - cbn [Helper.escape]. rewrite append_assoc, unescape_escape_char, IH.
    reflexivity.
Qed.

Lemma parse_json_dumps (s : string) :
  parse_string_literal (Helper.json_dumps s) = Some s.
Proof. unfold Helper.json_dumps. cbn. apply unescape_escape. Qed.

Lemma trim_end_app (x y : string) (c : ascii) (y' : string) :
  trim_end y = String c y' -> trim_end (x +:+ y) = x +:+ String c y'.
Proof.
  intros Hy. induction x as [|a x IH].
  - exact Hy.
  - rewrite !append_cons. cbn [trim_end]. rewrite IH.
    destruct x; reflexivity.
Qed.

Lemma trim_json_dumps_nl (s : string) :
  trim (Helper.json_dumps s +:+ nl) = Helper.json_dumps s.
Proof.
  unfold trim, Helper.json_dumps.
  rewrite append_cons, append_assoc. cbn [trim_start].
  change (is_space dquote) with false. cbn iota.
  rewrite <- append_cons.
  rewrite (trim_end_app _ _ dquote EmptyString) by reflexivity.
  reflexivity.
Qed.

(** ** The route, path by path *)

Section Route.

Variable l : Server.Listing.
Variable h : Server.Host.
Variable videoId : option string.

Abbreviation command := (Server.command_of videoId).
Abbreviation model := Server.model_name.

Ltac run_route :=
  unfold Server.handle, Server.transcript_route, Server.call_exec,
    Server.call_JSON_parse, Server.call_generateContent, Server.console_error,
    Server.res_json, Server.res_status_json, Server.emit, try_catch, bind,
    modify, get, ret, throw, never; cbn.

Lemma handle_invalid :
  truthy videoId = false ->
  Server.handle l h videoId =
    (Normal tt,
     {| Server.calls := [];
        Server.sent := Some {| Server.status := 400;
                               Server.body := error_obj "videoId is required" |} |}).
Proof. intros Hv. run_route. rewrite Hv. reflexivity. Qed.

Lemma handle_exec_pending :
  truthy videoId = true ->
  Server.exec h command = Server.ExecPending ->
  Server.handle l h videoId =
    (Never, {| Server.calls := [Server.Exec command]; Server.sent := None |}).
Proof. intros Hv He. run_route. rewrite Hv. cbn. rewrite He. reflexivity. Qed.

Lemma handle_exec_error (err stdout stderr : string) :
  truthy videoId = true ->
  Server.exec h command = Server.ExecCallback (Some err) stdout stderr ->
  Server.handle l h videoId =
    (Normal tt,
     {| Server.calls := [Server.Exec command;
                         Server.ConsoleError "Python Error:" stderr];
        Server.sent := Some {| Server.status := 500;
                               Server.body := error_obj "Failed to fetch transcript" |} |}).
Proof. intros Hv He. run_route. rewrite Hv. cbn. rewrite He. reflexivity. Qed.

Lemma handle_parse_error (stdout stderr : string) :
  truthy videoId = true ->
  Server.exec h command = Server.ExecCallback None stdout stderr ->
  Server.JSON_parse h (trim stdout) = None ->
  Server.handle l h videoId =
    (Throws "SyntaxError",
     {| Server.calls := [Server.Exec command]; Server.sent := None |}).
Proof.
  intros Hv He Hp. run_route. rewrite Hv. cbn. rewrite He. cbn.
  rewrite Hp. reflexivity.
Qed.

Section Parsed.

Variables stdout stderr transcript : string.
Hypothesis Hv : truthy videoId = true.
Hypothesis He : Server.exec h command = Server.ExecCallback None stdout stderr.
Hypothesis Hp : Server.JSON_parse h (trim stdout) = Some transcript.

Abbreviation prompt := (Server.prompt_of transcript).

Ltac run_parsed :=
  run_route; rewrite Hv; cbn; rewrite He; cbn; rewrite Hp; cbn.

Lemma handle_gen_text (summary : string) :
  Server.generateContent h model prompt = Server.GenText summary ->
  Server.handle l h videoId =
    (Normal tt,
     {| Server.calls := [Server.Exec command; Server.GenerateContent model prompt];
        Server.sent := Some {| Server.status := 200;
                               Server.body := Server.success_body l summary videoId |} |}).
Proof. intros Hg. run_parsed. rewrite Hg. reflexivity. Qed.

Lemma handle_gen_throws (apiError : string) :
  Server.generateContent h model prompt = Server.GenThrows apiError ->
  Server.handle l h videoId =
    (Normal tt,
     {| Server.calls := [Server.Exec command; Server.GenerateContent model prompt;
                         Server.ConsoleError "Gemini API Error:" apiError];
        Server.sent := Some {| Server.status := 500;
                               Server.body :=
                                 error_obj "Failed to generate notes using Gemini" |} |}).
Proof. intros Hg. run_parsed. rewrite Hg. reflexivity. Qed.

Lemma handle_gen_pending :
  Server.generateContent h model prompt = Server.GenPending ->
  Server.handle l h videoId =
    (Never,
     {| Server.calls := [Server.Exec command; Server.GenerateContent model prompt];
        Server.sent := None |}).
Proof. intros Hg. run_parsed. rewrite Hg. reflexivity. Qed.

End Parsed.

End Route.

(** The scenarios of the specification, run on the model. *)

Example scenario_A :
  Server.handle Server.NotesAndVideoId
    (node_host Scenario.captions "abc123" Scenario.summarizer) (Some "abc123")
  = (Normal tt,
     {| Server.calls :=
          [Server.Exec "python get_transcript.py abc123";
           Server.GenerateContent "gemini-2.0-flash"
             (Server.prompt_of "hello world this is a test")];
        Server.sent := Some {| Server.status := 200;
                               Server.body := notes_obj Scenario.summary "abc123" |} |}).
Proof. reflexivity. Qed.

Example scenario_B :
  Server.handle Server.NotesAndVideoId
    (node_host Scenario.captions "abc123" Scenario.summarizer) (Some EmptyString)
  = (Normal tt,
     {| Server.calls := [];
        Server.sent := Some {| Server.status := 400;
                               Server.body := error_obj "videoId is required" |} |}).
Proof. reflexivity. Qed.

Example scenario_C :
  Server.handle Server.NotesAndVideoId
    (node_host Scenario.captions_disabled "abc123" Scenario.summarizer) (Some "abc123")
  = (Normal tt,
     {| Server.calls :=
          [Server.Exec "python get_transcript.py abc123";
           Server.ConsoleError "Python Error:"
             ("Error: Subtitles are disabled for this video" +:+ nl)];
        Server.sent := Some {| Server.status := 500;
                               Server.body := error_obj "Failed to fetch transcript" |} |}).
Proof. reflexivity. Qed.

Example scenario_D :
  Server.sent
    (snd (Server.handle Server.NotesAndVideoId
            (node_host Scenario.captions "abc123" Scenario.quota_exceeded)
            (Some "abc123")))
  = Some {| Server.status := 500;
            Server.body := error_obj "Failed to generate notes using Gemini" |}.
Proof. reflexivity. Qed.

(** A helper that fails is an [exec] error. *)
Lemma exec_of_failed_process (p : Helper.Process) :
  Helper.exit_code p <> 0 ->
  exec_of_process p
    = Server.ExecCallback (Some "Command failed") (Helper.stdout p) (Helper.stderr p).
Proof.
  intros Hne. unfold exec_of_process.
  destruct (Nat.eqb_spec (Helper.exit_code p) 0); [contradiction | reflexivity].
Qed.

(** The helper exits with status 1 exactly when it was given no id or the
    API raised. *)
Lemma helper_exit_code (get_transcript : string -> Helper.ApiOutcome) (argv : list string) :
  Helper.exit_code (Helper.get_transcript_py get_transcript argv) = 0
  \/ Helper.exit_code (Helper.get_transcript_py get_transcript argv) = 1.
Proof.
  unfold Helper.get_transcript_py.
  destruct argv as [|a0 [|video_id rest]]; cbn; auto.
  destruct (get_transcript video_id); cbn; auto.
Qed.

Lemma absent_or_empty_truthy (v : option string) :
  absent_or_empty v -> truthy v = false.
Proof. intros H. now apply not_truthy_cases. Qed.

(** ** The listener, path by path *)

Section Listener.

Variable pg : Bridge.Page.

Abbreviation page_v := (Bridge.URLSearchParams_get "v" (Bridge.location_search pg)).

Lemma onMessage_other_action (m : Bridge.Message) :
  Bridge.action m <> "getTranscript" ->
  Bridge.onMessage pg m =
    {| Bridge.fetched := []; Bridge.responded := None; Bridge.returned_true := false |}.
Proof.
  intros Hm. unfold Bridge.onMessage.
  destruct (String.eqb_spec (Bridge.action m) "getTranscript"); [contradiction | reflexivity].
Qed.

Lemma onMessage_no_video :
  truthy page_v = false ->
  Bridge.onMessage pg Scenario.getTranscript =
    {| Bridge.fetched := [];
       Bridge.responded := Some (error_obj "No video ID found");
       Bridge.returned_true := false |}.
Proof. intros Hv. unfold Bridge.onMessage. cbn. rewrite Hv. reflexivity. Qed.

Lemma onMessage_fetch (v : string) :
  page_v = Some v -> truthy (Some v) = true ->
  Bridge.onMessage pg Scenario.getTranscript =
    {| Bridge.fetched := [Bridge.url_of v];
       Bridge.responded :=
         match Bridge.fetch pg (Bridge.url_of v) with
         | Bridge.FetchData data => Some (Bridge.on_data v data)
         | Bridge.FetchRejects _ => Some (error_obj "Backend error.")
         | Bridge.FetchPending => None
         end;
       Bridge.returned_true := true |}.
Proof. intros Hp Hv. unfold Bridge.onMessage. cbn. rewrite Hp, Hv. reflexivity. Qed.

End Listener.

(** ** The popup's callback, path by path *)

Section Callback.

Variable marked_parse : string -> string.
Variable st : Popup.St.

Ltac run_callback :=
  unfold Popup.sendMessage_callback, Popup.storage_local_set, Popup.set_notesOutput,
    Popup.set_loading_display, Popup.set_generate_disabled,
    Popup.set_download_hidden, bind, modify, ret, throw; cbn.

Lemma callback_lastError (message : string) (response : option Obj) :
  Popup.sendMessage_callback marked_parse (Some message) response st =
    (Normal tt,
     {| Popup.storage := Popup.storage st;
        Popup.set_calls := Popup.set_calls st;
        Popup.notesOutput := Popup.InnerText ("Error: " +:+ message);
        Popup.loading_display := "none";
        Popup.generate_disabled := false;
        Popup.download_hidden := Popup.download_hidden st |}).
Proof. run_callback. reflexivity. Qed.

Lemma callback_undefined :
  Popup.sendMessage_callback marked_parse None None st =
    (Throws "TypeError",
     {| Popup.storage := Popup.storage st;
        Popup.set_calls := Popup.set_calls st;
        Popup.notesOutput := Popup.notesOutput st;
        Popup.loading_display := "none";
        Popup.generate_disabled := false;
        Popup.download_hidden := Popup.download_hidden st |}).
Proof. run_callback. reflexivity. Qed.

Lemma callback_notes (response : Obj) :
  truthy (notes response) = true ->
  Popup.sendMessage_callback marked_parse None (Some response) st =
    (Normal tt,
     {| Popup.storage :=
          <[ template (videoId response) := template (notes response) ]>
            (Popup.storage st);
        Popup.set_calls :=
          Popup.set_calls st ++ [(template (videoId response), template (notes response))];
        Popup.notesOutput := Popup.InnerHTML (marked_parse (template (notes response)));
        Popup.loading_display := "none";
        Popup.generate_disabled := false;
        Popup.download_hidden := false |}).
Proof. intros Hn. run_callback. rewrite Hn. reflexivity. Qed.

Lemma callback_no_notes (response : Obj) :
  truthy (notes response) = false ->
  Popup.sendMessage_callback marked_parse None (Some response) st =
    (Normal tt,
     {| Popup.storage := Popup.storage st;
        Popup.set_calls := Popup.set_calls st;
        Popup.notesOutput :=
          if truthy (error response)
          then Popup.InnerText (template (error response))
          else Popup.notesOutput st;
        Popup.loading_display := "none";
        Popup.generate_disabled := false;
        Popup.download_hidden := Popup.download_hidden st |}).
Proof.
  intros Hn. run_callback. rewrite Hn.
  destruct (truthy (error response)); reflexivity.
Qed.

End Callback.

(** A click resets the UI and then runs the callback on the reset popup. *)
Lemma click_deliver (marked_parse : string -> string) (t : Popup.Transport) (st : Popup.St) :
  Popup.generateNotes_click marked_parse t st =
    Popup.deliver marked_parse t
      {| Popup.storage := Popup.storage st;
         Popup.set_calls := Popup.set_calls st;
         Popup.notesOutput := Popup.InnerHTML EmptyString;
         Popup.loading_display := "block";
         Popup.generate_disabled := true;
         Popup.download_hidden := true |}.
Proof. reflexivity. Qed.

(** The entries of a store whose key is [k]. *)
Lemma entries_of_key (m : gmap string string) (k v : string) :
  m !! k = Some v ->
  List.filter (fun p => String.eqb (fst p) k) (map_to_list m) = [(k, v)].
Proof.
  intros Hk.
  assert (Hnd : NoDup (map fst (map_to_list m))) by apply NoDup_fst_map_to_list.
  assert (Hin : (k, v) ∈ map_to_list m) by now apply elem_of_map_to_list.
  revert Hnd Hin. generalize (map_to_list m) as entries.
  induction entries as [|[k' v'] entries IH]; intros Hnd Hin.
  - now apply elem_of_nil in Hin.
  - cbn [map fst] in Hnd. apply NoDup_cons in Hnd as [Hfresh Hnd].
    cbn [List.filter fst].
    apply elem_of_cons in Hin as [Heq | Hin].
    + injection Heq as <- <-. rewrite String.eqb_refl. f_equal.
      clear IH Hnd. induction entries as [|[k2 v2] entries IH2]; [reflexivity|].
      cbn [List.filter fst].
      destruct (String.eqb_spec k2 k) as [-> | Hne].
      * exfalso. apply Hfresh. cbn. left.
      * apply IH2. intros Hc. apply Hfresh. cbn. now right.
    + destruct (String.eqb_spec k' k) as [-> | Hne].
      * exfalso. apply Hfresh.
        change k with (fst (k, v)). now apply list_elem_of_fmap_2.
      * now apply IH.
Qed.

(** X18: reading back.  On reopening the popup for a video whose notes were
    just stored, the stored text is the one rendered, unchanged. *)
Lemma store_then_load
    (marked_parse : string -> string) (st : Popup.St) (r : Obj) (id : string) :
  videoId r = Some id -> truthy (notes r) = true ->
  let st1 := snd (Popup.sendMessage_callback marked_parse None (Some r) st) in
  Popup.storage st1 !! id = notes r
  /\ Popup.notesOutput (snd (Popup.DOMContentLoaded marked_parse id st1))
     = Popup.InnerHTML (marked_parse (template (notes r))).
Proof.
  intros Hid Hn st1. subst st1. rewrite (callback_notes marked_parse st r Hn).
  cbn [snd Popup.storage]. rewrite Hid. cbn [template].
  assert (L : <[ id := template (notes r) ]> (Popup.storage st) !! id = notes r).
  { rewrite lookup_insert_eq. symmetry. now apply truthy_template. }
  split; [exact L|].
  unfold Popup.DOMContentLoaded, bind, get. cbn [Popup.storage].
  rewrite L, Hn. reflexivity.
Qed.

(** * The claims *)

(** C1, as stated, fails on the code.  Under the listing of
    [AI_Notes_Chrome_Extension_Documentation.md], a request for ["abc123"]
    whose transcript and summary are both obtained is answered 200 with
    [{ notes }] and no [videoId].  And under either listing, that the helper
    succeeds is not enough: for the id [abc123;echo hi] the helper exits with
    status 0 after printing its JSON line, the shell then prints [hi], and the
    route throws on the two lines without answering. *)
Lemma C1_counterexample :
  let h := node_host Scenario.captions "abc123" Scenario.summarizer in
  let p := Helper.get_transcript_py Scenario.captions ["get_transcript.py"; "abc123"] in
  let h' := injected_host Scenario.captions "abc123" "hi" Scenario.summarizer in
  Server.sent (snd (Server.handle Server.NotesOnly h (Some "abc123")))
    = Some {| Server.status := 200;
              Server.body := notes_only_obj Scenario.summary |}
  /\ Server.sent (snd (Server.handle Server.NotesOnly h (Some "abc123")))
    <> Some {| Server.status := 200;
               Server.body := notes_obj Scenario.summary "abc123" |}
  /\ Helper.exit_code p = 0
  /\ parse_string_literal (trim (Helper.stdout p)) = Some "hello world this is a test"
  /\ Server.handle Server.NotesAndVideoId h' (Some "abc123;echo hi")
     = (Throws "SyntaxError",
        {| Server.calls := [Server.Exec "python get_transcript.py abc123;echo hi"];
           Server.sent := None |}).
Proof. repeat split; try reflexivity. vm_compute. discriminate. Qed.

(** C1 (amended): for every request with a non-empty [videoId] for which
    transcript retrieval succeeds as the route sees it ([exec] calls back with
    a null error and [JSON.parse] accepts the trimmed standard output) and
    the summarizer succeeds (it returns a non-empty text), the route runs the
    command once and calls the model once and answers 200 with the
    summarizer's text unmodified as [notes]; the body also carries the
    requested [videoId] under the listing of the comprehensive documentation,
    and [notes] alone under the other.  A bridge that receives this body
    forwards exactly [{ notes, videoId }] to the UI, where [videoId] is the
    [v] parameter of its page. *)
Theorem C1_success_response
    (l : Server.Listing) (h : Server.Host) (id stdout stderr transcript summary : string)
    (pg : Bridge.Page) (v : string) :
  id <> EmptyString ->
  Server.exec h (Server.command_of (Some id)) = Server.ExecCallback None stdout stderr ->
  Server.JSON_parse h (trim stdout) = Some transcript ->
  Server.generateContent h Server.model_name (Server.prompt_of transcript)
    = Server.GenText summary ->
  summary <> EmptyString ->
  Bridge.URLSearchParams_get "v" (Bridge.location_search pg) = Some v ->
  v <> EmptyString ->
  Bridge.fetch pg (Bridge.url_of v)
    = Bridge.FetchData (Some (Server.success_body l summary (Some id))) ->
  Server.handle l h (Some id)
    = (Normal tt,
       {| Server.calls := [Server.Exec (Server.command_of (Some id));
                           Server.GenerateContent Server.model_name
                             (Server.prompt_of transcript)];
          Server.sent := Some {| Server.status := 200;
                                 Server.body := Server.success_body l summary (Some id) |} |})
  /\ Server.success_body Server.NotesAndVideoId summary (Some id) = notes_obj summary id
  /\ Server.success_body Server.NotesOnly summary (Some id) = notes_only_obj summary
  /\ Bridge.responded (Bridge.onMessage pg Scenario.getTranscript)
     = Some (notes_obj summary v).
Proof.
  intros Hid He Hp Hg Hs Hv Hv' Hf.
  assert (Tid : truthy (Some id) = true) by (destruct id; [contradiction | reflexivity]).
  assert (Tv : truthy (Some v) = true) by (destruct v; [contradiction | reflexivity]).
  assert (Ts : truthy (Some summary) = true)
    by (destruct summary; [contradiction | reflexivity]).
  split; [|split; [reflexivity | split; [reflexivity|]]].
  - exact (handle_gen_text l h (Some id) stdout stderr transcript Tid He Hp summary Hg).
  - rewrite (onMessage_fetch pg v Hv Tv). cbn [Bridge.responded]. rewrite Hf.
    unfold Bridge.on_data.
    destruct l; cbn [Server.success_body notes]; rewrite Ts; reflexivity.
Qed.

Lemma C1_success_response_witness :
  let h := node_host Scenario.captions "abc123" Scenario.summarizer in
  let pg := Scenario.watch_page "abc123"
              (Bridge.FetchData
                 (Some (Server.success_body Server.NotesAndVideoId Scenario.summary
                          (Some "abc123")))) in
  Server.sent (snd (Server.handle Server.NotesAndVideoId h (Some "abc123")))
    = Some {| Server.status := 200;
              Server.body := notes_obj Scenario.summary "abc123" |}
  /\ Bridge.responded (Bridge.onMessage pg Scenario.getTranscript)
     = Some (notes_obj Scenario.summary "abc123").
Proof.
  intros h pg.
  destruct (C1_success_response Server.NotesAndVideoId h "abc123"
              (Helper.json_dumps "hello world this is a test" +:+ nl) EmptyString
              "hello world this is a test" Scenario.summary pg "abc123")
    as (Hrun & _ & _ & Hbridge);
    try reflexivity; try discriminate.
  split; [rewrite Hrun; reflexivity | exact Hbridge].
Defined.

(** C2: a request whose [videoId] is absent or empty is answered
    [400 { error: 'videoId is required' }] before anything else happens: the
    run makes no call at all, so neither the helper nor the model is
    invoked.  A page whose URL has no (or an empty) [v] parameter makes the
    listener answer with an error without fetching from the backend. *)
Theorem C2_invalid_request
    (l : Server.Listing) (h : Server.Host) (videoId : option string) (pg : Bridge.Page) :
  absent_or_empty videoId ->
  absent_or_empty (Bridge.URLSearchParams_get "v" (Bridge.location_search pg)) ->
  Server.handle l h videoId
    = (Normal tt,
       {| Server.calls := [];
          Server.sent := Some {| Server.status := 400;
                                 Server.body := error_obj "videoId is required" |} |})
  /\ Server.exec_calls (snd (Server.handle l h videoId)) = 0
  /\ Server.generate_calls (snd (Server.handle l h videoId)) = 0
  /\ Bridge.onMessage pg Scenario.getTranscript
     = {| Bridge.fetched := [];
          Bridge.responded := Some (error_obj "No video ID found");
          Bridge.returned_true := false |}.
Proof.
  intros Hq Hv.
  apply absent_or_empty_truthy in Hq. apply absent_or_empty_truthy in Hv.
  rewrite (handle_invalid l h videoId Hq).
  repeat split. now apply onMessage_no_video.
Qed.

Lemma C2_invalid_request_witness :
  let h := node_host Scenario.captions "abc123" Scenario.summarizer in
  let pg := Scenario.other_page (Bridge.FetchRejects "unreachable") in
  Server.sent (snd (Server.handle Server.NotesAndVideoId h (Some EmptyString)))
    = Some {| Server.status := 400; Server.body := error_obj "videoId is required" |}
  /\ Server.calls (snd (Server.handle Server.NotesAndVideoId h (Some EmptyString))) = []
  /\ Bridge.fetched (Bridge.onMessage pg Scenario.getTranscript) = [].
Proof.
  intros h pg.
  destruct (C2_invalid_request Server.NotesAndVideoId h (Some EmptyString) pg)
    as (Hrun & _ & _ & Hbridge).
  - right. reflexivity.
  - left. reflexivity.
  - rewrite Hrun, Hbridge. repeat split.
Defined.

(** When [exec] calls back with an error, as it does when the status of the
    shell command is not 0, the route logs the standard error it was given,
    answers [500 { error: 'Failed to fetch transcript' }] and never calls the
    generative model. *)
Lemma exec_error_is_fetch_failure
    (l : Server.Listing) (h : Server.Host) (videoId : option string)
    (err stdout stderr : string) :
  truthy videoId = true ->
  Server.exec h (Server.command_of videoId)
    = Server.ExecCallback (Some err) stdout stderr ->
  Server.handle l h videoId
    = (Normal tt,
       {| Server.calls := [Server.Exec (Server.command_of videoId);
                           Server.ConsoleError "Python Error:" stderr];
          Server.sent := Some {| Server.status := 500;
                                 Server.body := error_obj "Failed to fetch transcript" |} |})
  /\ Server.generate_calls (snd (Server.handle l h videoId)) = 0.
Proof.
  intros Hv He. rewrite (handle_exec_error l h videoId err stdout stderr Hv He).
  split; reflexivity.
Qed.

(** C3 fails on the code: the route tests the status of the shell command,
    not that of the helper.  For the id [x;echo 42] the helper exits with
    status 1 (the API raised), the shell goes on to [echo 42] and exits with
    status 0: [exec] reports no error, the route decodes [42] as the
    transcript, calls the model once and answers 200. *)
Theorem C3_helper_failure_undetected :
  let p := Helper.get_transcript_py Scenario.captions_disabled ["get_transcript.py"; "x"] in
  let h := injected_host Scenario.captions_disabled "x" "42" Scenario.summarizer in
  Helper.exit_code p = 1
  /\ Server.exec h (Server.command_of (Some "x;echo 42"))
     = Server.ExecCallback None ("42" +:+ nl)
         ("Error: Subtitles are disabled for this video" +:+ nl)
  /\ (forall l,
        Server.handle l h (Some "x;echo 42")
        = (Normal tt,
           {| Server.calls := [Server.Exec "python get_transcript.py x;echo 42";
                               Server.GenerateContent "gemini-2.0-flash"
                                 (Server.prompt_of "42")];
              Server.sent :=
                Some {| Server.status := 200;
                        Server.body :=
                          Server.success_body l Scenario.summary (Some "x;echo 42") |} |})
        /\ Server.generate_calls (snd (Server.handle l h (Some "x;echo 42"))) = 1).
Proof.
  split; [reflexivity|]. split; [reflexivity|].
  intros l. destruct l; split; reflexivity.
Qed.

(** C6 fails on the code: [JSON.parse] stands before the [try], so when the
    helper exits with status 0 and its output is not JSON, the callback throws
    [SyntaxError]: no response is sent and the model is not called. *)
Theorem C6_malformed_output_throws
    (l : Server.Listing) (h : Server.Host) (videoId : option string)
    (stdout stderr : string) :
  truthy videoId = true ->
  Server.exec h (Server.command_of videoId) = Server.ExecCallback None stdout stderr ->
  Server.JSON_parse h (trim stdout) = None ->
  Server.handle l h videoId
    = (Throws "SyntaxError",
       {| Server.calls := [Server.Exec (Server.command_of videoId)];
          Server.sent := None |}).
Proof. intros Hv He Hp. exact (handle_parse_error l h videoId stdout stderr Hv He Hp). Qed.

Lemma C6_malformed_output_throws_witness :
  Server.handle Server.NotesAndVideoId Scenario.echo_host (Some "x;echo hi")
    = (Throws "SyntaxError",
       {| Server.calls := [Server.Exec "python get_transcript.py x;echo hi"];
          Server.sent := None |}).
Proof.
  exact (C6_malformed_output_throws Server.NotesAndVideoId Scenario.echo_host
           (Some "x;echo hi") ("hi" +:+ nl)
           ("Error: Could not retrieve a transcript" +:+ nl)
           eq_refl eq_refl eq_refl).
Defined.

(** C7, as stated, fails on the code: no call is made with a bound on its
    wait.  With a helper that never exits the run never answers; with a
    provider that never answers, neither: in both runs no response is sent,
    so no failure kind is reported. *)
Lemma C7_counterexample :
  let h := node_host Scenario.captions "abc123" Scenario.silent_summarizer in
  Server.handle Server.NotesAndVideoId Scenario.hanging_host (Some "abc123")
    = (Never,
       {| Server.calls := [Server.Exec "python get_transcript.py abc123"];
          Server.sent := None |})
  /\ fst (Server.handle Server.NotesAndVideoId h (Some "abc123")) = Never
  /\ Server.sent (snd (Server.handle Server.NotesAndVideoId h (Some "abc123"))) = None
  /\ Server.generate_calls (snd (Server.handle Server.NotesAndVideoId h (Some "abc123"))) = 1.
Proof. repeat split. Qed.

(** C7 (amended): neither external call is made with a bounded wait.  The
    route answers only once the helper's callback has been called and the
    provider's promise has settled: while the helper has not exited, or while
    the provider has not answered, no response is sent.  Likewise the
    listener's [fetch] has no bound: while it is pending the listener keeps
    the channel open without answering, the popup's callback is not called
    and the loading indicator stays on. *)
Theorem C7_no_bounded_wait
    (l : Server.Listing) (h : Server.Host) (videoId : option string)
    (pg : Bridge.Page) (v : string) :
  truthy videoId = true ->
  Bridge.URLSearchParams_get "v" (Bridge.location_search pg) = Some v ->
  truthy (Some v) = true ->
  (Server.exec h (Server.command_of videoId) = Server.ExecPending ->
   Server.handle l h videoId
     = (Never,
        {| Server.calls := [Server.Exec (Server.command_of videoId)];
           Server.sent := None |}))
  /\ (forall stdout stderr transcript,
        Server.exec h (Server.command_of videoId)
          = Server.ExecCallback None stdout stderr ->
        Server.JSON_parse h (trim stdout) = Some transcript ->
        Server.generateContent h Server.model_name (Server.prompt_of transcript)
          = Server.GenPending ->
        Server.handle l h videoId
          = (Never,
             {| Server.calls := [Server.Exec (Server.command_of videoId);
                                 Server.GenerateContent Server.model_name
                                   (Server.prompt_of transcript)];
                Server.sent := None |}))
  /\ (Bridge.fetch pg (Bridge.url_of v) = Bridge.FetchPending ->
      Popup.transport_of (Bridge.onMessage pg Scenario.getTranscript) = Popup.Silent
      /\ forall marked_parse st,
           let t := Popup.transport_of (Bridge.onMessage pg Scenario.getTranscript) in
           fst (Popup.generateNotes_click marked_parse t st) = Never
           /\ Popup.loading_display
                (snd (Popup.generateNotes_click marked_parse t st)) = "block").
Proof.
  intros Hq Hv Tv. split; [|split].
  - intros He. exact (handle_exec_pending l h videoId Hq He).
  - intros stdout stderr transcript He Hp Hg.
    exact (handle_gen_pending l h videoId stdout stderr transcript Hq He Hp Hg).
  - intros Hf.
    assert (Ht : Popup.transport_of (Bridge.onMessage pg Scenario.getTranscript)
                 = Popup.Silent).
    { rewrite (onMessage_fetch pg v Hv Tv). unfold Popup.transport_of.
      cbn [Bridge.responded Bridge.returned_true]. rewrite Hf. reflexivity. }
    split; [exact Ht|].
    intros marked_parse st t. subst t. rewrite Ht. split; reflexivity.
Qed.

Lemma C7_no_bounded_wait_witness :
  let h := node_host Scenario.captions "abc123" Scenario.silent_summarizer in
  let pg := Scenario.watch_page "abc123" Bridge.FetchPending in
  fst (Server.handle Server.NotesOnly Scenario.hanging_host (Some "abc123")) = Never
  /\ Server.handle Server.NotesOnly h (Some "abc123")
     = (Never,
        {| Server.calls := [Server.Exec "python get_transcript.py abc123";
                            Server.GenerateContent "gemini-2.0-flash"
                              (Server.prompt_of "hello world this is a test")];
           Server.sent := None |})
  /\ Popup.transport_of (Bridge.onMessage pg Scenario.getTranscript) = Popup.Silent.
Proof.
  intros h pg.
  destruct (C7_no_bounded_wait Server.NotesOnly Scenario.hanging_host (Some "abc123")
              pg "abc123" eq_refl eq_refl eq_refl) as (Hexec & _ & Hfetch).
  destruct (C7_no_bounded_wait Server.NotesOnly h (Some "abc123")
              pg "abc123" eq_refl eq_refl eq_refl) as (_ & Hgen & _).
  split; [|split].
  - rewrite (Hexec eq_refl). reflexivity.
  - exact (Hgen (Helper.json_dumps "hello world this is a test" +:+ nl) EmptyString
             "hello world this is a test" eq_refl eq_refl eq_refl).
  - exact (proj1 (Hfetch eq_refl)).
Defined.

(** C8, as stated, fails on the code: an empty provider response is not an
    exception, so the route answers 200 with empty notes, not the 500 of a
    failed summarization.  (The bridge then reports "No notes returned.") *)
Lemma C8_counterexample :
  let h := node_host Scenario.captions "abc123" Scenario.empty_summarizer in
  Server.sent (snd (Server.handle Server.NotesOnly h (Some "abc123")))
    = Some {| Server.status := 200; Server.body := notes_only_obj EmptyString |}
  /\ Server.sent (snd (Server.handle Server.NotesOnly h (Some "abc123")))
    <> Some {| Server.status := 500;
               Server.body := error_obj "Failed to generate notes using Gemini" |}
  /\ Bridge.on_data "abc123" (Some (notes_only_obj EmptyString))
     = error_obj "No notes returned.".
Proof. repeat split. vm_compute. discriminate. Qed.

(** C8 (amended): for every summarizer failure that surfaces as an exception
    or a rejected promise, after a successful fetch, the route logs the error
    and answers [500 { error: 'Failed to generate notes using Gemini' }]: the
    response is the same whatever the error, and nothing of it reaches the
    caller. *)
Theorem C8_summarization_failure
    (l : Server.Listing) (h : Server.Host) (videoId : option string)
    (stdout stderr transcript apiError : string) :
  truthy videoId = true ->
  Server.exec h (Server.command_of videoId) = Server.ExecCallback None stdout stderr ->
  Server.JSON_parse h (trim stdout) = Some transcript ->
  Server.generateContent h Server.model_name (Server.prompt_of transcript)
    = Server.GenThrows apiError ->
  Server.handle l h videoId
    = (Normal tt,
       {| Server.calls := [Server.Exec (Server.command_of videoId);
                           Server.GenerateContent Server.model_name
                             (Server.prompt_of transcript);
                           Server.ConsoleError "Gemini API Error:" apiError];
          Server.sent := Some {| Server.status := 500;
                                 Server.body :=
                                   error_obj "Failed to generate notes using Gemini" |} |}).
Proof.
  intros Hv He Hp Hg.
  exact (handle_gen_throws l h videoId stdout stderr transcript Hv He Hp apiError Hg).
Qed.

Lemma C8_summarization_failure_witness :
  let h := node_host Scenario.captions "abc123" Scenario.quota_exceeded in
  Server.sent (snd (Server.handle Server.NotesAndVideoId h (Some "abc123")))
    = Some {| Server.status := 500;
              Server.body := error_obj "Failed to generate notes using Gemini" |}.
Proof.
  intros h.
  rewrite (C8_summarization_failure Server.NotesAndVideoId h (Some "abc123")
             (Helper.json_dumps "hello world this is a test" +:+ nl) EmptyString
             "hello world this is a test"
             "[429 Too Many Requests] Resource has been exhausted"
             eq_refl eq_refl eq_refl eq_refl).
  reflexivity.
Defined.

(** The listener never answers with both an error and notes: an answer that
    carries [error] has no [notes]. *)
Lemma listener_error_has_no_notes (pg : Bridge.Page) (m : Bridge.Message) (r : Obj) :
  Bridge.responded (Bridge.onMessage pg m) = Some r ->
  error r <> None -> notes r = None.
Proof.
  unfold Bridge.onMessage.
  destruct (String.eqb (Bridge.action m) "getTranscript"); cbn; [|discriminate].
  destruct (truthy (Bridge.URLSearchParams_get "v" (Bridge.location_search pg)));
    cbn.
  - destruct (Bridge.fetch pg _) as [[d|]|e|]; cbn; try discriminate.
    + destruct (truthy (notes d)); intros [= <-]; cbn; congruence.
    + intros [= <-]. reflexivity.
    + intros [= <-]. reflexivity.
  - intros [= <-]. reflexivity.
Qed.

(** C4: a failed run (the channel reports an error, or the answer carries no
    notes, as every error answer of the listener does) leaves the store as it
    was, whatever it held, and clears the loading indicator and re-enables the
    button; the store changes only when an answer with notes arrives without
    channel error. *)
Theorem C4_failed_run_keeps_store
    (marked_parse : string -> string) (st : Popup.St)
    (lastError : option string) (response : option Obj) :
  let st' := snd (Popup.sendMessage_callback marked_parse lastError response st) in
  ((lastError <> None \/ exists r, response = Some r /\ truthy (notes r) = false) ->
   Popup.storage st' = Popup.storage st
   /\ Popup.set_calls st' = Popup.set_calls st
   /\ Popup.loading_display st' = "none"
   /\ Popup.generate_disabled st' = false)
  /\ (Popup.set_calls st' <> Popup.set_calls st ->
      lastError = None /\ exists r, response = Some r /\ truthy (notes r) = true)
  /\ (forall pg m r, Bridge.responded (Bridge.onMessage pg m) = Some r ->
        error r <> None -> truthy (notes r) = false).
Proof.
  intros st'. subst st'. split; [|split].
  - intros [Herr | (r & -> & Hn)].
    + destruct lastError as [message|]; [|contradiction].
      rewrite callback_lastError. repeat split.
    + destruct lastError as [message|].
      * rewrite callback_lastError. repeat split.
      * rewrite (callback_no_notes marked_parse st r Hn). repeat split.
  - destruct lastError as [message|].
    + rewrite callback_lastError. cbn. contradiction.
    + destruct response as [r|].
      * destruct (truthy (notes r)) eqn:Hn.
        -- intros _. split; [reflexivity | eauto].
        -- rewrite (callback_no_notes marked_parse st r Hn). cbn. contradiction.
      * rewrite callback_undefined. cbn. contradiction.
  - intros pg m r Hr He. now rewrite (listener_error_has_no_notes pg m r Hr He).
Qed.

Lemma C4_failed_run_keeps_store_witness :
  let st := {| Popup.storage := {[ "abc123" := "- old note" ]};
               Popup.set_calls := [];
               Popup.notesOutput := Popup.InnerHTML EmptyString;
               Popup.loading_display := "block";
               Popup.generate_disabled := true;
               Popup.download_hidden := true |} in
  let failure := error_obj "Failed to fetch transcript" in
  let success := notes_obj "- new note" "abc123" in
  let st' := snd (Popup.sendMessage_callback Scenario.render None (Some failure) st) in
  (Popup.storage st' = {[ "abc123" := "- old note" ]}
   /\ Popup.set_calls st' = []
   /\ Popup.loading_display st' = "none"
   /\ Popup.generate_disabled st' = false)
  /\ (exists r, Some success = Some r /\ truthy (notes r) = true)
  /\ truthy (notes failure) = false.
Proof.
  intros st failure success st'.
  destruct (C4_failed_run_keeps_store Scenario.render st None (Some failure))
    as (Hfail & _ & Hlistener).
  destruct (C4_failed_run_keeps_store Scenario.render st None (Some success))
    as (_ & Hwrite & _).
  split; [|split].
  - apply Hfail. right. exists failure. split; reflexivity.
  - apply Hwrite. cbn. discriminate.
  - apply (Hlistener (Scenario.watch_page "abc123" (Bridge.FetchData (Some failure)))
             Scenario.getTranscript failure); [reflexivity | discriminate].
Defined.

(** C5, as stated, fails on the code: the script has no check for an empty
    join.  For a transcript without segments it prints the empty JSON string
    and exits with status 0, and the route goes on to call the model with an
    empty transcript. *)
Lemma C5_counterexample :
  let p := Helper.get_transcript_py Scenario.no_segments ["get_transcript.py"; "abc123"] in
  let h := node_host Scenario.no_segments "abc123" Scenario.summarizer in
  Helper.texts [] = EmptyString
  /\ Helper.exit_code p = 0
  /\ Helper.stdout p = String dquote (String dquote nl)
  /\ parse_string_literal (trim (Helper.stdout p)) = Some EmptyString
  /\ Server.handle Server.NotesOnly h (Some "abc123")
     = (Normal tt,
        {| Server.calls := [Server.Exec "python get_transcript.py abc123";
                            Server.GenerateContent "gemini-2.0-flash"
                              (Server.prompt_of EmptyString)];
           Server.sent := Some {| Server.status := 200;
                                  Server.body := notes_only_obj Scenario.summary |} |}).
Proof. repeat split. Qed.

(** C5 (amended): for every successful fetch (the helper exits with status
    0), the helper was given a video id, the API returned its segments, and
    the helper printed one line: the JSON encoding of the segments' text
    fields joined in their order with single spaces.  Trimmed and decoded as
    the route does, that line is the joined text itself.  The joined text may
    be empty. *)
Theorem C5_transcript_is_join
    (get_transcript : string -> Helper.ApiOutcome) (argv : list string) :
  let p := Helper.get_transcript_py get_transcript argv in
  Helper.exit_code p = 0 ->
  exists video_id transcript,
    nth_error argv 1 = Some video_id
    /\ get_transcript video_id = Helper.Returns transcript
    /\ Helper.stdout p
       = Helper.json_dumps (String.concat " " (map Helper.text transcript)) +:+ nl
    /\ parse_string_literal (trim (Helper.stdout p))
       = Some (String.concat " " (map Helper.text transcript)).
Proof.
  intros p. subst p. unfold Helper.get_transcript_py.
  destruct argv as [|a0 [|video_id rest]];
    cbn [Helper.exit_code Helper.stdout nth_error]; try discriminate.
  destruct (get_transcript video_id) as [transcript|e] eqn:Hapi;
    cbn [Helper.exit_code Helper.stdout]; try discriminate.
  intros _. exists video_id, transcript.
  split; [reflexivity|]. split; [exact Hapi|]. split; [reflexivity|].
  unfold Helper.texts. rewrite trim_json_dumps_nl. apply parse_json_dumps.
Qed.

Lemma C5_transcript_is_join_witness :
  let p := Helper.get_transcript_py Scenario.captions ["get_transcript.py"; "abc123"] in
  Helper.exit_code p = 0
  /\ parse_string_literal (trim (Helper.stdout p)) = Some "hello world this is a test".
Proof.
  intros p. split; [reflexivity|].
  destruct (C5_transcript_is_join Scenario.captions ["get_transcript.py"; "abc123"] eq_refl)
    as (video_id & transcript & Hid & Hapi & _ & Hparse).
  injection Hapi as <-. exact Hparse.
Defined.

(** C9: the store is written one key at a time, the whole value at once, and
    the last write wins.  After two successful generations for the same video
    id, the store is the original one with that id bound to the second note:
    the id has exactly one entry, holding the latest note; the second
    generation added no entry; every other id is as it was. *)
Theorem C9_last_write_wins
    (marked_parse : string -> string) (st : Popup.St) (r1 r2 : Obj) (id : string) :
  videoId r1 = Some id -> videoId r2 = Some id ->
  truthy (notes r1) = true -> truthy (notes r2) = true ->
  let st1 := snd (Popup.generateNotes_click marked_parse (Popup.Answered r1) st) in
  let st2 := snd (Popup.generateNotes_click marked_parse (Popup.Answered r2) st1) in
  Popup.storage st2 = <[ id := template (notes r2) ]> (Popup.storage st)
  /\ Popup.storage st2 !! id = Some (template (notes r2))
  /\ List.filter (fun p => String.eqb (fst p) id) (map_to_list (Popup.storage st2))
     = [(id, template (notes r2))]
  /\ size (Popup.storage st2) = size (Popup.storage st1)
  /\ (forall id', id' <> id -> Popup.storage st2 !! id' = Popup.storage st !! id').
Proof.
  intros Hk1 Hk2 Hn1 Hn2 st1 st2.
  assert (E1 : Popup.storage st1 = <[ id := template (notes r1) ]> (Popup.storage st)).
  { subst st1. rewrite click_deliver. cbn [Popup.deliver].
    rewrite (callback_notes marked_parse _ r1 Hn1). cbn. now rewrite Hk1. }
  assert (E2 : Popup.storage st2 = <[ id := template (notes r2) ]> (Popup.storage st1)).
  { subst st2. rewrite click_deliver. cbn [Popup.deliver].
    rewrite (callback_notes marked_parse _ r2 Hn2). cbn. now rewrite Hk2. }
  assert (E : Popup.storage st2 = <[ id := template (notes r2) ]> (Popup.storage st)).
  { rewrite E2, E1. apply insert_insert_eq. }
  split; [exact E|].
  assert (L : Popup.storage st2 !! id = Some (template (notes r2))).
  { rewrite E. apply lookup_insert_eq. }
  split; [exact L|]. split; [now apply entries_of_key|]. split.
  - rewrite E2, map_size_insert, E1, lookup_insert_eq. reflexivity.
  - intros id' Hne. rewrite E. now apply lookup_insert_ne.
Qed.

Lemma C9_last_write_wins_witness :
  let r1 := notes_obj "- first" "abc123" in
  let r2 := notes_obj "- second" "abc123" in
  let st1 := snd (Popup.generateNotes_click Scenario.render (Popup.Answered r1)
                    Scenario.fresh_popup) in
  let st2 := snd (Popup.generateNotes_click Scenario.render (Popup.Answered r2) st1) in
  Popup.storage st2 !! "abc123" = Some "- second"
  /\ size (Popup.storage st2) = size (Popup.storage st1).
Proof.
  intros r1 r2 st1 st2.
  destruct (C9_last_write_wins Scenario.render Scenario.fresh_popup r1 r2 "abc123"
              eq_refl eq_refl eq_refl eq_refl) as (_ & Hl & _ & Hs & _).
  split; [exact Hl | exact Hs].
Defined.

(** C10: when the backend's answer has notes, the [videoId] the listener
    sends to the popup is the [v] parameter of its own page, whatever
    [videoId] the backend's answer holds or lacks; the popup stores the notes
    under that key. *)
Theorem C10_key_is_page_video_id
    (pg : Bridge.Page) (data : Obj) (v : string)
    (marked_parse : string -> string) (st : Popup.St) :
  Bridge.URLSearchParams_get "v" (Bridge.location_search pg) = Some v ->
  truthy (Some v) = true ->
  Bridge.fetch pg (Bridge.url_of v) = Bridge.FetchData (Some data) ->
  truthy (notes data) = true ->
  let run := Bridge.onMessage pg Scenario.getTranscript in
  Bridge.responded run = Some {| notes := notes data; videoId := Some v; error := None |}
  /\ (forall data', notes data' = notes data ->
        Bridge.on_data v (Some data') = Bridge.on_data v (Some data))
  /\ snd (Popup.generateNotes_click marked_parse (Popup.transport_of run) st)
     = {| Popup.storage := <[ v := template (notes data) ]> (Popup.storage st);
          Popup.set_calls := Popup.set_calls st ++ [(v, template (notes data))];
          Popup.notesOutput := Popup.InnerHTML (marked_parse (template (notes data)));
          Popup.loading_display := "none";
          Popup.generate_disabled := false;
          Popup.download_hidden := false |}.
Proof.
  intros Hv Tv Hf Hn run.
  assert (Hr : Bridge.responded run
               = Some {| notes := notes data; videoId := Some v; error := None |}).
  { subst run. rewrite (onMessage_fetch pg v Hv Tv). cbn [Bridge.responded].
    rewrite Hf. unfold Bridge.on_data. rewrite Hn. reflexivity. }
  split; [exact Hr|]. split.
  - intros data' Hd. unfold Bridge.on_data. rewrite Hd, Hn. reflexivity.
  - unfold Popup.transport_of. rewrite Hr. rewrite click_deliver. cbn [Popup.deliver].
    rewrite callback_notes by exact Hn. reflexivity.
Qed.

Lemma C10_key_is_page_video_id_witness :
  let data := notes_obj "- note" "another-id" in
  let pg := Scenario.watch_page "abc123" (Bridge.FetchData (Some data)) in
  let run := Bridge.onMessage pg Scenario.getTranscript in
  Bridge.responded run = Some (notes_obj "- note" "abc123")
  /\ Popup.storage
       (snd (Popup.generateNotes_click Scenario.render (Popup.transport_of run)
               Scenario.fresh_popup))
     = {[ "abc123" := "- note" ]}.
Proof.
  intros data pg run.
  destruct (C10_key_is_page_video_id pg data "abc123" Scenario.render Scenario.fresh_popup
              eq_refl eq_refl eq_refl eq_refl) as (Hr & _ & Hst).
  split; [exact Hr|].
  fold run in Hst. rewrite Hst. reflexivity.
Defined.

(** * Further properties of the route *)

(** Every request takes one of seven paths; [route_cases] rewrites the run
    along each of them. *)
Ltac route_cases l h q :=
  let Hq := fresh "Hq" in
  let He := fresh "He" in
  let Hp := fresh "Hp" in
  let Hg := fresh "Hg" in
  destruct (truthy q) eqn:Hq;
  [ destruct (Server.exec h (Server.command_of q)) as [[?err|] ?out ?errout|] eqn:He;
    [ rewrite (handle_exec_error l h q _ _ _ Hq He)
    | destruct (Server.JSON_parse h (trim out)) as [?transcript|] eqn:Hp;
      [ destruct (Server.generateContent h Server.model_name
                    (Server.prompt_of transcript)) as [?summary|?apiError|] eqn:Hg;
        [ rewrite (handle_gen_text l h q _ _ _ Hq He Hp _ Hg)
        | rewrite (handle_gen_throws l h q _ _ _ Hq He Hp _ Hg)
        | rewrite (handle_gen_pending l h q _ _ _ Hq He Hp Hg) ]
      | rewrite (handle_parse_error l h q _ _ Hq He Hp) ]
    | rewrite (handle_exec_pending l h q Hq He) ]
  | rewrite (handle_invalid l h q Hq) ].

(** X1: whatever the host does, a request runs the helper at most once and
    calls the model at most once, and only after the helper: the model is
    called only when the helper exited without error and its output was
    decoded, with the prompt built from that decoded transcript, right after
    the one [exec]. *)
Theorem route_call_order (l : Server.Listing) (h : Server.Host) (q : option string) :
  let st := snd (Server.handle l h q) in
  Server.exec_calls st <= 1
  /\ Server.generate_calls st <= Server.exec_calls st
  /\ (forall command, In (Server.Exec command) (Server.calls st) ->
        truthy q = true /\ command = Server.command_of q)
  /\ (forall model prompt,
        In (Server.GenerateContent model prompt) (Server.calls st) ->
        exists stdout stderr transcript rest,
          Server.exec h (Server.command_of q) = Server.ExecCallback None stdout stderr
          /\ Server.JSON_parse h (trim stdout) = Some transcript
          /\ model = Server.model_name
          /\ prompt = Server.prompt_of transcript
          /\ Server.calls st
             = Server.Exec (Server.command_of q)
                 :: Server.GenerateContent model prompt :: rest).
Proof.
  intros st. subst st.
  route_cases l h q; cbn [snd Server.calls];
    (split; [cbn; lia|]); (split; [cbn; lia|]); split.
  all: try (intros command Hin; cbn in Hin; intuition congruence).
  all: intros model prompt Hin; cbn in Hin.
  all: try (exfalso; intuition congruence).
  - destruct Hin as [Hin|[Hin|[]]]; [discriminate|]. injection Hin as <- <-.
    exists out, errout, transcript, []. auto.
  - destruct Hin as [Hin|[Hin|[Hin|[]]]]; try discriminate. injection Hin as <- <-.
    exists out, errout, transcript,
      [Server.ConsoleError "Gemini API Error:" apiError]. auto.
  - destruct Hin as [Hin|[Hin|[]]]; [discriminate|]. injection Hin as <- <-.
    exists out, errout, transcript, []. auto.
Qed.

Lemma route_call_order_witness :
  let h := node_host Scenario.captions "abc123" Scenario.quota_exceeded in
  exists stdout stderr transcript rest,
    Server.exec h (Server.command_of (Some "abc123"))
      = Server.ExecCallback None stdout stderr
    /\ Server.JSON_parse h (trim stdout) = Some transcript
    /\ Server.model_name = Server.model_name
    /\ Server.prompt_of "hello world this is a test" = Server.prompt_of transcript
    /\ Server.calls (snd (Server.handle Server.NotesOnly h (Some "abc123")))
       = Server.Exec (Server.command_of (Some "abc123"))
           :: Server.GenerateContent Server.model_name
                (Server.prompt_of "hello world this is a test") :: rest.
Proof.
  intros h.
  apply (proj2 (proj2 (proj2 (route_call_order Server.NotesOnly h (Some "abc123"))))).
  cbn. right. left. reflexivity.
Defined.

(** X2: the handler answers exactly when it completes: a run that completes
    has sent one response, a run that throws or waits has sent none.  The
    only exception that leaves the handler is the [SyntaxError] of
    [JSON.parse]; in particular Express never has to refuse a second
    response. *)
Theorem route_answers_iff_completes
    (l : Server.Listing) (h : Server.Host) (q : option string) :
  let out := Server.handle l h q in
  (fst out = Normal tt <-> exists r, Server.sent (snd out) = Some r)
  /\ (forall e, fst out = Throws e ->
        e = "SyntaxError"
        /\ exists stdout stderr,
             Server.exec h (Server.command_of q) = Server.ExecCallback None stdout stderr
             /\ Server.JSON_parse h (trim stdout) = None).
Proof.
  intros out. subst out.
  route_cases l h q; cbn [fst snd Server.sent]; split.
  all: try (split; [eauto | reflexivity]).
  all: try (split; [discriminate | intros [r Hr]; discriminate]).
  all: try (intros e He'; discriminate).
  intros e [= <-]. split; [reflexivity|]. exists out, errout. auto.
Qed.

Lemma route_answers_iff_completes_witness :
  "SyntaxError" = "SyntaxError"
  /\ exists stdout stderr,
       Server.exec Scenario.echo_host (Server.command_of (Some "x;echo hi"))
         = Server.ExecCallback None stdout stderr
       /\ Server.JSON_parse Scenario.echo_host (trim stdout) = None.
Proof.
  apply (proj2 (route_answers_iff_completes Server.NotesOnly Scenario.echo_host
                  (Some "x;echo hi"))).
  reflexivity.
Defined.

(** X3: a response has one of three statuses, and its body is a result or an
    error, never both: 200 carries the notes and no error; 400 and 500 carry
    one of three fixed messages and no notes, so neither the helper's
    standard error nor the provider's error reaches the caller. *)
Theorem route_response_shape
    (l : Server.Listing) (h : Server.Host) (q : option string) (r : Server.Response) :
  Server.sent (snd (Server.handle l h q)) = Some r ->
  (Server.status r = 200
   /\ exists summary, Server.body r = Server.success_body l summary q
                      /\ notes (Server.body r) = Some summary
                      /\ error (Server.body r) = None)
  \/ (Server.status r = 400
      /\ absent_or_empty q
      /\ Server.body r = error_obj "videoId is required")
  \/ (Server.status r = 500
      /\ (Server.body r = error_obj "Failed to fetch transcript"
          \/ Server.body r = error_obj "Failed to generate notes using Gemini")).
Proof.
  route_cases l h q; cbn [snd Server.sent]; intros [= <-]; cbn [Server.status Server.body].
  - right. right. auto.
  - left. split; [reflexivity|]. exists summary. destruct l; auto.
  - right. right. auto.
  - right. left. split; [reflexivity|]. split; [|reflexivity].
    now apply not_truthy_cases.
Qed.

Lemma route_response_shape_witness :
  let h := node_host Scenario.captions_disabled "abc123" Scenario.summarizer in
  let r := {| Server.status := 500;
              Server.body := error_obj "Failed to fetch transcript" |} in
  (Server.status r = 200
   /\ exists summary,
        Server.body r = Server.success_body Server.NotesOnly summary (Some "abc123")
        /\ notes (Server.body r) = Some summary
        /\ error (Server.body r) = None)
  \/ (Server.status r = 400
      /\ absent_or_empty (Some "abc123")
      /\ Server.body r = error_obj "videoId is required")
  \/ (Server.status r = 500
      /\ (Server.body r = error_obj "Failed to fetch transcript"
          \/ Server.body r = error_obj "Failed to generate notes using Gemini")).
Proof.
  intros h r.
  exact (route_response_shape Server.NotesOnly h (Some "abc123") r eq_refl).
Defined.

(** X4: the two listings of the route run alike: same completion, same
    calls, same status, same [notes] and [error] in the body.  They differ in
    the [videoId] of the body alone, which the page listener does not read:
    what it forwards to the popup is the same under both. *)
Theorem listings_agree (h : Server.Host) (q : option string) (v : string) :
  let a := Server.handle Server.NotesOnly h q in
  let b := Server.handle Server.NotesAndVideoId h q in
  fst a = fst b
  /\ Server.calls (snd a) = Server.calls (snd b)
  /\ option_map Server.status (Server.sent (snd a))
     = option_map Server.status (Server.sent (snd b))
  /\ option_map (fun r => notes (Server.body r)) (Server.sent (snd a))
     = option_map (fun r => notes (Server.body r)) (Server.sent (snd b))
  /\ option_map (fun r => error (Server.body r)) (Server.sent (snd a))
     = option_map (fun r => error (Server.body r)) (Server.sent (snd b))
  /\ option_map (fun r => Bridge.on_data v (Some (Server.body r))) (Server.sent (snd a))
     = option_map (fun r => Bridge.on_data v (Some (Server.body r))) (Server.sent (snd b)).
Proof.
  intros a b. subst a b.
  destruct (truthy q) eqn:Hq.
  - destruct (Server.exec h (Server.command_of q)) as [[err|] out errout|] eqn:He.
    + rewrite !(handle_exec_error _ h q _ _ _ Hq He). repeat split.
    + destruct (Server.JSON_parse h (trim out)) as [transcript|] eqn:Hp.
      * destruct (Server.generateContent h Server.model_name
                    (Server.prompt_of transcript)) as [summary|apiError|] eqn:Hg.
        -- rewrite !(handle_gen_text _ h q _ _ _ Hq He Hp _ Hg). repeat split.
        -- rewrite !(handle_gen_throws _ h q _ _ _ Hq He Hp _ Hg). repeat split.
        -- rewrite !(handle_gen_pending _ h q _ _ _ Hq He Hp Hg). repeat split.
      * rewrite !(handle_parse_error _ h q _ _ Hq He Hp). repeat split.
    + rewrite !(handle_exec_pending _ h q Hq He). repeat split.
  - rewrite !(handle_invalid _ h q Hq). repeat split.
Qed.

(** * Further properties of the helper *)

Lemma append_eq_empty (a b : string) :
  a +:+ b = EmptyString -> a = EmptyString /\ b = EmptyString.
Proof. destruct a; [auto | rewrite append_cons; discriminate]. Qed.

Lemma all_chars_append (p : ascii -> bool) (a b : string) :
  all_chars p (a +:+ b) = all_chars p a && all_chars p b.
Proof.
  induction a as [|c a IH]; [reflexivity|].
  rewrite append_cons. cbn [all_chars]. rewrite IH. now rewrite andb_assoc.
Qed.

Lemma length_append (a b : string) :
  String.length (a +:+ b) = (String.length a + String.length b)%nat.
Proof.
  induction a as [|c a IH]; [reflexivity|].
  rewrite append_cons. cbn [String.length]. now rewrite IH.
Qed.

Lemma escape_char_printable (c : ascii) :
  all_chars printable (Helper.escape_char c) = true.
Proof. destruct c as [[] [] [] [] [] [] [] []]; reflexivity. Qed.

Lemma escape_printable (s : string) : all_chars printable (Helper.escape s) = true.
Proof.
  induction s as [|c s IH]; [reflexivity|].
  cbn [Helper.escape]. now rewrite all_chars_append, escape_char_printable, IH.
Qed.

Lemma json_dumps_printable (s : string) :
  all_chars printable (Helper.json_dumps s) = true.
Proof.
  unfold Helper.json_dumps. cbn [all_chars].
  rewrite all_chars_append, escape_printable. reflexivity.
Qed.

(** X5: the joined text is empty in two cases only: the transcript has no
    segment, or it has one segment whose text is empty.  With two segments
    or more the separator is there. *)
Theorem texts_empty_iff (transcript : list Helper.Entry) :
  Helper.texts transcript = EmptyString
  <-> transcript = []
      \/ exists e, transcript = [e] /\ Helper.text e = EmptyString.
Proof.
  unfold Helper.texts. split.
  - destruct transcript as [|e [|e' rest]]; cbn [map String.concat].
    + auto.
    + intros He. right. exists e. auto.
    + intros He. apply append_eq_empty in He as [_ He].
      apply append_eq_empty in He as [He _]. discriminate.
  - intros [-> | (e & -> & He)]; [reflexivity | exact He].
Qed.

Lemma texts_empty_iff_witness :
  Helper.texts [ {| Helper.text := EmptyString |} ] = EmptyString
  /\ Helper.texts [ {| Helper.text := "a" |}; {| Helper.text := EmptyString |} ]
     <> EmptyString.
Proof.
  split.
  - apply (proj2 (texts_empty_iff [ {| Helper.text := EmptyString |} ])).
    right. exists {| Helper.text := EmptyString |}. split; reflexivity.
  - intros H.
    apply (proj1 (texts_empty_iff
                    [ {| Helper.text := "a" |}; {| Helper.text := EmptyString |} ])) in H.
    destruct H as [H | (e & H & _)]; discriminate H.
Defined.

(** X6: the helper keeps its two streams apart.  When it exits with status 0
    it wrote nothing to standard error and exactly one line to standard
    output, made of printable ASCII characters only (so no line break can
    occur inside it); otherwise the status is 1, standard output is empty and
    standard error holds a line. *)
Theorem helper_output_discipline
    (get_transcript : string -> Helper.ApiOutcome) (argv : list string) :
  let p := Helper.get_transcript_py get_transcript argv in
  (Helper.exit_code p = 0 ->
   Helper.stderr p = EmptyString
   /\ exists line, Helper.stdout p = line +:+ nl
                   /\ all_chars printable line = true
                   /\ (2 <= String.length line)%nat)
  /\ (Helper.exit_code p <> 0 ->
      Helper.exit_code p = 1
      /\ Helper.stdout p = EmptyString
      /\ exists message, Helper.stderr p = message +:+ nl).
Proof.
  intros p. subst p. unfold Helper.get_transcript_py.
  destruct argv as [|a0 [|video_id rest]];
    cbn [Helper.exit_code Helper.stdout Helper.stderr].
  1,2: split; [discriminate | intros _; repeat split; eauto].
  destruct (get_transcript video_id) as [transcript|e];
    cbn [Helper.exit_code Helper.stdout Helper.stderr]; split.
  - intros _. split; [reflexivity|].
    exists (Helper.json_dumps (Helper.texts transcript)).
    split; [reflexivity|]. split; [apply json_dumps_printable|].
    unfold Helper.json_dumps. cbn [String.length].
    rewrite length_append. cbn [String.length]. lia.
  - intros Hne. contradiction.
  - discriminate.
  - intros _. split; [reflexivity|]. split; [reflexivity|].
    exists ("Error: " +:+ e). now rewrite append_assoc.
Qed.

Lemma helper_output_discipline_witness :
  let tab := String (ascii_of_nat 9) EmptyString in
  let api := fun _ : string =>
     Helper.Returns [ {| Helper.text := "line one" +:+ nl +:+ "line" +:+ tab +:+ "two" |} ] in
  let p := Helper.get_transcript_py api ["get_transcript.py"; "abc123"] in
  let q := Helper.get_transcript_py Scenario.captions_disabled ["get_transcript.py"] in
  (Helper.stderr p = EmptyString
   /\ exists line, Helper.stdout p = line +:+ nl
                   /\ all_chars printable line = true
                   /\ (2 <= String.length line)%nat)
  /\ (Helper.exit_code q = 1
      /\ Helper.stdout q = EmptyString
      /\ exists message, Helper.stderr q = message +:+ nl).
Proof.
  intros tab api p q. split.
  - apply (proj1 (helper_output_discipline api ["get_transcript.py"; "abc123"])).
    reflexivity.
  - apply (proj2 (helper_output_discipline Scenario.captions_disabled ["get_transcript.py"])).
    discriminate.
Defined.

(** * The route over the repository's helper *)

Section OwnHelper.

Variable h : Server.Host.
Variable get_transcript : string -> Helper.ApiOutcome.
Variable maxBuffer : N.
Variable id : string.

(** [exec] reports what the helper did with the requested id. *)
Hypothesis Hreports : reports_helper h get_transcript maxBuffer id.

Abbreviation helper_run :=
  (Helper.get_transcript_py get_transcript ["get_transcript.py"; id]).

(** What [exec] reported is an error, or the helper's line after a
    successful run. *)
Lemma reported_cases :
  (exists err stdout stderr,
     Server.exec h (Server.command_of (Some id))
       = Server.ExecCallback (Some err) stdout stderr)
  \/ (exists transcript,
        get_transcript id = Helper.Returns transcript
        /\ Server.exec h (Server.command_of (Some id))
           = Server.ExecCallback None
               (Helper.json_dumps (Helper.texts transcript) +:+ nl) EmptyString).
Proof.
  unfold reports_helper in Hreports. cbv zeta in Hreports.
  destruct ((N.of_nat (String.length (Helper.stdout helper_run)) <=? maxBuffer)
            && (N.of_nat (String.length (Helper.stderr helper_run)) <=? maxBuffer))%N.
  - revert Hreports. unfold Helper.get_transcript_py.
    destruct (get_transcript id) as [transcript|e];
      cbn [Helper.exit_code Helper.stdout Helper.stderr Nat.eqb].
    + intros He. right. exists transcript. auto.
    + intros (err & He). left. eauto.
  - destruct Hreports as (err & stdout & stderr & He). left. eauto.
Qed.

(** X7: whenever [exec] reports, for the command of the request, what the
    helper did with the requested id as its one argument, and [JSON.parse]
    reads back what [json.dumps] wrote, the decoding step of the route cannot
    fail: no run throws, whatever the transcript API and the provider do.
    When the API returns the segments and the helper's line fits in
    [maxBuffer], the prompt given to the model ends with exactly their texts
    joined by single spaces. *)
Theorem own_helper_output_always_parses (l : Server.Listing) :
  (forall s, Server.JSON_parse h (Helper.json_dumps s) = Some s) ->
  let out := Server.handle l h (Some id) in
  (forall e, fst out <> Throws e)
  /\ (forall transcript,
        id <> EmptyString ->
        get_transcript id = Helper.Returns transcript ->
        (N.of_nat (String.length (Helper.json_dumps (Helper.texts transcript) +:+ nl))
         <= maxBuffer)%N ->
        exists rest,
          Server.calls (snd out)
          = Server.Exec (Server.command_of (Some id))
              :: Server.GenerateContent Server.model_name
                   (Server.prompt_of (String.concat " " (map Helper.text transcript)))
              :: rest).
Proof.
  intros Hparse out. subst out.
  destruct (truthy (Some id)) eqn:Hq.
  - assert (Hok : forall transcript stderr,
              Server.exec h (Server.command_of (Some id))
                = Server.ExecCallback None
                    (Helper.json_dumps (Helper.texts transcript) +:+ nl) stderr ->
              (forall e, fst (Server.handle l h (Some id)) <> Throws e)
              /\ exists rest,
                   Server.calls (snd (Server.handle l h (Some id)))
                   = Server.Exec (Server.command_of (Some id))
                       :: Server.GenerateContent Server.model_name
                            (Server.prompt_of (Helper.texts transcript))
                       :: rest).
    { intros transcript stderr He.
      assert (Hp : Server.JSON_parse h
                     (trim (Helper.json_dumps (Helper.texts transcript) +:+ nl))
                   = Some (Helper.texts transcript))
        by (rewrite trim_json_dumps_nl; apply Hparse).
      destruct (Server.generateContent h Server.model_name
                  (Server.prompt_of (Helper.texts transcript)))
        as [summary|apiError|] eqn:Hg.
      - rewrite (handle_gen_text l h _ _ _ _ Hq He Hp _ Hg).
        split; [discriminate | eexists; reflexivity].
      - rewrite (handle_gen_throws l h _ _ _ _ Hq He Hp _ Hg).
        split; [discriminate | eexists; reflexivity].
      - rewrite (handle_gen_pending l h _ _ _ _ Hq He Hp Hg).
        split; [discriminate | eexists; reflexivity]. }
    split.
    + destruct reported_cases as [(err & stdout & stderr & He) | (transcript & _ & He)].
      * rewrite (handle_exec_error l h _ _ _ _ Hq He). discriminate.
      * exact (proj1 (Hok transcript EmptyString He)).
    + intros transcript _ Hapi Hfits.
      refine (proj2 (Hok transcript EmptyString _)).
      unfold reports_helper in Hreports. cbv zeta in Hreports. revert Hreports.
      unfold Helper.get_transcript_py. rewrite Hapi.
      cbn [Helper.exit_code Helper.stdout Helper.stderr Nat.eqb].
      apply N.leb_le in Hfits. rewrite Hfits.
      change (N.of_nat (String.length EmptyString)) with 0%N.
      replace (0 <=? maxBuffer)%N with true by (symmetry; apply N.leb_le, N.le_0_l).
      cbn [andb]. intros He. exact He.
  - rewrite (handle_invalid l h _ Hq).
    split; [discriminate|]. intros transcript Hid.
    destruct id; [contradiction | discriminate].
Qed.

(** X8: whenever [exec] reports what the helper did with the requested id,
    the transcript API raises and the helper's message fits in [maxBuffer],
    the route's log holds the helper's message with the cause, while the
    response holds the fixed message only; the model is not set up. *)
Theorem helper_failure_is_logged (l : Server.Listing) (e : string) :
  id <> EmptyString ->
  get_transcript id = Helper.Raises e ->
  (N.of_nat (String.length ("Error: " +:+ e +:+ nl)) <= maxBuffer)%N ->
  Server.handle l h (Some id)
    = (Normal tt,
       {| Server.calls := [Server.Exec (Server.command_of (Some id));
                           Server.ConsoleError "Python Error:" ("Error: " +:+ e +:+ nl)];
          Server.sent := Some {| Server.status := 500;
                                 Server.body := error_obj "Failed to fetch transcript" |} |}).
Proof.
  intros Hid Hapi Hfits.
  assert (Hq : truthy (Some id) = true) by (destruct id; [contradiction | reflexivity]).
  unfold reports_helper in Hreports. cbv zeta in Hreports. revert Hreports.
  unfold Helper.get_transcript_py. rewrite Hapi.
  cbn [Helper.exit_code Helper.stdout Helper.stderr Nat.eqb].
  apply N.leb_le in Hfits. rewrite Hfits.
  change (N.of_nat (String.length EmptyString)) with 0%N.
  replace (0 <=? maxBuffer)%N with true by (symmetry; apply N.leb_le, N.le_0_l).
  cbn [andb]. intros (err & He).
  exact (handle_exec_error l h _ _ _ _ Hq He).
Qed.

End OwnHelper.

Lemma own_helper_output_always_parses_witness :
  let tab := String (ascii_of_nat 9) EmptyString in
  let quoted := String dquote ("hi" +:+ String dquote EmptyString) in
  let api := fun _ : string =>
     Helper.Returns [ {| Helper.text := "say " +:+ quoted |};
                      {| Helper.text := "then" +:+ tab +:+ "stop" |} ] in
  let h := node_host api "abc123" Scenario.summarizer in
  reports_helper h api 1048576 "abc123"
  /\ exists rest,
       Server.calls (snd (Server.handle Server.NotesOnly h (Some "abc123")))
       = Server.Exec "python get_transcript.py abc123"
           :: Server.GenerateContent "gemini-2.0-flash"
                (Server.prompt_of ("say " +:+ quoted +:+ " then" +:+ tab +:+ "stop"))
           :: rest.
Proof.
  intros tab quoted api h.
  assert (Hr : reports_helper h api 1048576 "abc123") by reflexivity.
  split; [exact Hr|].
  refine (proj2 (own_helper_output_always_parses h api 1048576 "abc123" Hr
                   Server.NotesOnly parse_json_dumps)
            [ {| Helper.text := "say " +:+ quoted |};
              {| Helper.text := "then" +:+ tab +:+ "stop" |} ] _ eq_refl _);
    [discriminate | vm_compute; discriminate].
Defined.

Lemma helper_failure_is_logged_witness :
  let h := node_host Scenario.captions_disabled "abc123" Scenario.summarizer in
  reports_helper h Scenario.captions_disabled 1048576 "abc123"
  /\ Server.calls (snd (Server.handle Server.NotesAndVideoId h (Some "abc123")))
     = [Server.Exec "python get_transcript.py abc123";
        Server.ConsoleError "Python Error:"
          ("Error: Subtitles are disabled for this video" +:+ nl)].
Proof.
  intros h.
  assert (Hr : reports_helper h Scenario.captions_disabled 1048576 "abc123").
  { unfold reports_helper. vm_compute. exists "Command failed". reflexivity. }
  split; [exact Hr|].
  rewrite (helper_failure_is_logged h Scenario.captions_disabled 1048576 "abc123" Hr
             Server.NotesAndVideoId "Subtitles are disabled for this video").
  - reflexivity.
  - discriminate.
  - reflexivity.
  - vm_compute. discriminate.
Defined.

(** * Further properties of the page listener *)

Lemma js_or_nonempty (a : option string) (b : string) :
  b <> EmptyString -> js_or a b <> EmptyString.
Proof. intros Hb. destruct a as [[|c s]|]; cbn; [exact Hb | discriminate | exact Hb]. Qed.

(** X9: whatever the page and the backend do, an answer of the listener has
    one of two shapes: [{ notes, videoId }] with non-empty notes and the
    non-empty [v] parameter of the page, after one fetch of the backend URL
    for that id; or [{ error }] with a non-empty message.  It never holds
    both notes and an error, and never an empty error. *)
Theorem listener_answer_shape (pg : Bridge.Page) (m : Bridge.Message) (r : Obj) :
  Bridge.responded (Bridge.onMessage pg m) = Some r ->
  (exists n v,
     r = notes_obj n v /\ n <> EmptyString /\ v <> EmptyString
     /\ Bridge.URLSearchParams_get "v" (Bridge.location_search pg) = Some v
     /\ Bridge.fetched (Bridge.onMessage pg m) = [Bridge.url_of v])
  \/ (exists msg, r = error_obj msg /\ msg <> EmptyString).
Proof.
  unfold Bridge.onMessage.
  destruct (String.eqb (Bridge.action m) "getTranscript");
    cbn [Bridge.responded Bridge.fetched]; [|discriminate].
  destruct (Bridge.URLSearchParams_get "v" (Bridge.location_search pg))
    as [[|c v]|] eqn:Hv; cbn [truthy negb template Bridge.responded Bridge.fetched].
  1,3: intros [= <-]; right; eexists; split; [reflexivity | discriminate].
  destruct (Bridge.fetch pg _) as [[d|]|e|]; try discriminate.
  - unfold Bridge.on_data. destruct (notes d) as [[|c' n]|] eqn:Hn; cbn [truthy].
    1,3: intros [= <-]; right; eexists; split;
         [reflexivity | apply js_or_nonempty; discriminate].
    intros [= <-]. left. exists (String c' n), (String c v).
    repeat split; discriminate.
  - intros [= <-]. right. eexists. split; [reflexivity | discriminate].
  - intros [= <-]. right. eexists. split; [reflexivity | discriminate].
Qed.

Lemma listener_answer_shape_witness :
  let data := {| notes := None; videoId := Some "abc123"; error := Some EmptyString |} in
  let pg := Scenario.watch_page "abc123" (Bridge.FetchData (Some data)) in
  (exists n v,
     error_obj "No notes returned." = notes_obj n v /\ n <> EmptyString /\ v <> EmptyString
     /\ Bridge.URLSearchParams_get "v" (Bridge.location_search pg) = Some v
     /\ Bridge.fetched (Bridge.onMessage pg Scenario.getTranscript) = [Bridge.url_of v])
  \/ (exists msg, error_obj "No notes returned." = error_obj msg /\ msg <> EmptyString).
Proof.
  intros data pg.
  exact (listener_answer_shape pg Scenario.getTranscript
           (error_obj "No notes returned.") eq_refl).
Defined.

(** X10: the listener returns [true], keeping the channel open, exactly when
    it has started a fetch; it fetches one URL at most.  A [getTranscript]
    message is therefore never answered by a closed channel: the popup gets
    the listener's answer or, while the fetch is pending, nothing yet.  Any
    other message is left unanswered and the channel closes. *)
Theorem listener_channel_discipline (pg : Bridge.Page) (m : Bridge.Message) :
  let run := Bridge.onMessage pg m in
  (Bridge.returned_true run = true <-> Bridge.fetched run <> [])
  /\ (length (Bridge.fetched run) <= 1)%nat
  /\ (Bridge.action m = "getTranscript" ->
      (exists r, Popup.transport_of run = Popup.Answered r)
      \/ (Popup.transport_of run = Popup.Silent
          /\ exists v, Bridge.fetched run = [Bridge.url_of v]
                       /\ Bridge.fetch pg (Bridge.url_of v) = Bridge.FetchPending))
  /\ (Bridge.action m <> "getTranscript" ->
      Bridge.fetched run = []
      /\ Popup.transport_of run
         = Popup.ChannelError "The message port closed before a response was received.").
Proof.
  intros run. subst run. unfold Bridge.onMessage.
  destruct (String.eqb_spec (Bridge.action m) "getTranscript") as [Ha|Ha].
  - destruct (truthy (Bridge.URLSearchParams_get "v" (Bridge.location_search pg)));
      cbn [negb Bridge.returned_true Bridge.fetched length].
    + split; [split; [discriminate | reflexivity]|]. split; [lia|].
      split; [|contradiction]. intros _. unfold Popup.transport_of.
      cbn [Bridge.responded Bridge.returned_true].
      destruct (Bridge.fetch pg _) as [d|e|] eqn:Hf; eauto.
    + split; [split; [discriminate | contradiction]|]. split; [lia|].
      split; [|contradiction]. intros _. left. eexists. reflexivity.
  - cbn [Bridge.returned_true Bridge.fetched length].
    split; [split; [discriminate | contradiction]|]. split; [lia|].
    split; [contradiction|]. intros _. split; reflexivity.
Qed.

Lemma listener_channel_discipline_witness :
  let pg := Scenario.watch_page "abc123" Bridge.FetchPending in
  ((exists r, Popup.transport_of (Bridge.onMessage pg Scenario.getTranscript)
              = Popup.Answered r)
   \/ (Popup.transport_of (Bridge.onMessage pg Scenario.getTranscript) = Popup.Silent
       /\ exists v, Bridge.fetched (Bridge.onMessage pg Scenario.getTranscript)
                    = [Bridge.url_of v]
                    /\ Bridge.fetch pg (Bridge.url_of v) = Bridge.FetchPending))
  /\ Popup.transport_of (Bridge.onMessage pg {| Bridge.action := "ping" |})
     = Popup.ChannelError "The message port closed before a response was received.".
Proof.
  intros pg.
  destruct (listener_channel_discipline pg Scenario.getTranscript) as (_ & _ & Hget & _).
  destruct (listener_channel_discipline pg {| Bridge.action := "ping" |})
    as (_ & _ & _ & Hother).
  split; [apply Hget; reflexivity | apply Hother; discriminate].
Defined.

(** * From the route to the popup *)

Section Pipeline.

Variable l : Server.Listing.
Variable h : Server.Host.
Variable q : option string.
Variable pg : Bridge.Page.
Variable v : string.
Variable marked_parse : string -> string.
Variable st : Popup.St.

(** The page shows the video [v], and its fetch gets the body [b]. *)
Hypothesis page_v :
  Bridge.URLSearchParams_get "v" (Bridge.location_search pg) = Some v.
Hypothesis v_nonempty : v <> EmptyString.

Lemma truthy_nonempty (s : string) : s <> EmptyString -> truthy (Some s) = true.
Proof. destruct s; [contradiction | reflexivity]. Qed.

Lemma click_after_fetch (b : Obj) :
  Bridge.fetch pg (Bridge.url_of v) = Bridge.FetchData (Some b) ->
  Popup.generateNotes_click marked_parse
    (Popup.transport_of (Bridge.onMessage pg Scenario.getTranscript)) st
  = Popup.sendMessage_callback marked_parse None (Some (Bridge.on_data v (Some b)))
      {| Popup.storage := Popup.storage st;
         Popup.set_calls := Popup.set_calls st;
         Popup.notesOutput := Popup.InnerHTML EmptyString;
         Popup.loading_display := "block";
         Popup.generate_disabled := true;
         Popup.download_hidden := true |}.
Proof.
  intros Hf. rewrite (onMessage_fetch pg v page_v (truthy_nonempty v v_nonempty)).
  unfold Popup.transport_of. cbn [Bridge.responded]. rewrite Hf.
  rewrite click_deliver. reflexivity.
Qed.

(** X11: every error response of the route reaches the user as it is.  When
    the backend answers 400 or 500 and the listener fetched that answer, the
    popup shows the route's message as text, leaves the store alone, clears
    the loading indicator, re-enables the button and keeps the download
    button hidden. *)
Theorem error_reaches_ui (r : Server.Response) :
  Server.sent (snd (Server.handle l h q)) = Some r ->
  Server.status r <> 200 ->
  Bridge.fetch pg (Bridge.url_of v) = Bridge.FetchData (Some (Server.body r)) ->
  let st' := snd (Popup.generateNotes_click marked_parse
                    (Popup.transport_of (Bridge.onMessage pg Scenario.getTranscript)) st) in
  exists msg,
    Server.body r = error_obj msg
    /\ Popup.notesOutput st' = Popup.InnerText msg
    /\ Popup.storage st' = Popup.storage st
    /\ Popup.set_calls st' = Popup.set_calls st
    /\ Popup.loading_display st' = "none"
    /\ Popup.generate_disabled st' = false
    /\ Popup.download_hidden st' = true.
Proof.
  intros Hsent Hstatus Hf st'. subst st'. rewrite (click_after_fetch _ Hf).
  revert Hsent Hstatus.
  route_cases l h q; cbn [snd Server.sent]; intros [= <-];
    cbn [Server.status Server.body]; intros Hstatus; try contradiction.
  all: eexists; split; [reflexivity|].
  all: rewrite callback_no_notes by reflexivity; repeat split.
Qed.

(** X12: a 200 answer of the route carries what the model returned, and the
    listener and the popup treat it by its content.  A non-empty summary is
    stored unchanged under the page's video id, rendered, and offered for
    download as it was returned; an empty summary is shown as the error
    "No notes returned." and nothing is stored. *)
Theorem summary_reaches_store (r : Server.Response) :
  Server.sent (snd (Server.handle l h q)) = Some r ->
  Server.status r = 200 ->
  Bridge.fetch pg (Bridge.url_of v) = Bridge.FetchData (Some (Server.body r)) ->
  let st' := snd (Popup.generateNotes_click marked_parse
                    (Popup.transport_of (Bridge.onMessage pg Scenario.getTranscript)) st) in
  exists stdout stderr transcript summary,
    Server.exec h (Server.command_of q) = Server.ExecCallback None stdout stderr
    /\ Server.JSON_parse h (trim stdout) = Some transcript
    /\ Server.generateContent h Server.model_name (Server.prompt_of transcript)
       = Server.GenText summary
    /\ (summary <> EmptyString ->
        st' = {| Popup.storage := <[ v := summary ]> (Popup.storage st);
                 Popup.set_calls := Popup.set_calls st ++ [(v, summary)];
                 Popup.notesOutput := Popup.InnerHTML (marked_parse summary);
                 Popup.loading_display := "none";
                 Popup.generate_disabled := false;
                 Popup.download_hidden := false |}
        /\ Download.downloadBtn_click v st'
           = Some {| Download.content := summary;
                     Download.mime := "text/markdown";
                     Download.filename := "youtube-notes.md" |})
    /\ (summary = EmptyString ->
        Popup.notesOutput st' = Popup.InnerText "No notes returned."
        /\ Popup.storage st' = Popup.storage st
        /\ Popup.set_calls st' = Popup.set_calls st
        /\ Popup.download_hidden st' = true).
Proof.
  intros Hsent Hstatus Hf st'. subst st'. rewrite (click_after_fetch _ Hf).
  revert Hsent Hstatus.
  route_cases l h q; cbn [snd Server.sent]; intros [= <-];
    cbn [Server.status Server.body]; intros Hstatus; try discriminate.
  exists out, errout, transcript, summary.
  do 3 (split; [first [reflexivity | assumption]|]).
  assert (Hb : Bridge.on_data v (Some (Server.success_body l summary q))
               = if truthy (Some summary) then notes_obj summary v
                 else error_obj "No notes returned.").
  { unfold Bridge.on_data. destruct l; cbn [Server.success_body notes error];
      destruct (truthy (Some summary)); reflexivity. }
  rewrite Hb. split.
  - intros Hs. rewrite (truthy_nonempty summary Hs).
    rewrite callback_notes by (exact (truthy_nonempty summary Hs)).
    cbn [snd notes_obj notes videoId template]. split; [reflexivity|].
    unfold Download.downloadBtn_click. cbn [Popup.storage].
    rewrite lookup_insert_eq, (truthy_nonempty summary Hs). reflexivity.
  - intros ->. cbn [truthy]. rewrite callback_no_notes by reflexivity.
    repeat split.
Qed.

End Pipeline.

Lemma error_reaches_ui_witness :
  let h := node_host Scenario.captions_disabled "abc123" Scenario.summarizer in
  let r := {| Server.status := 500;
              Server.body := error_obj "Failed to fetch transcript" |} in
  let pg := Scenario.watch_page "abc123" (Bridge.FetchData (Some (Server.body r))) in
  let st' := snd (Popup.generateNotes_click Scenario.render
                    (Popup.transport_of (Bridge.onMessage pg Scenario.getTranscript))
                    Scenario.fresh_popup) in
  exists msg,
    Server.body r = error_obj msg
    /\ Popup.notesOutput st' = Popup.InnerText msg
    /\ Popup.storage st' = Popup.storage Scenario.fresh_popup
    /\ Popup.set_calls st' = Popup.set_calls Scenario.fresh_popup
    /\ Popup.loading_display st' = "none"
    /\ Popup.generate_disabled st' = false
    /\ Popup.download_hidden st' = true.
Proof.
  intros h r pg.
  apply (error_reaches_ui Server.NotesOnly h (Some "abc123") pg "abc123"
           Scenario.render Scenario.fresh_popup eq_refl);
    [discriminate | reflexivity | discriminate | reflexivity].
Defined.

Lemma summary_reaches_store_witness :
  let h := node_host Scenario.captions "abc123" Scenario.summarizer in
  let r := {| Server.status := 200;
              Server.body := notes_only_obj Scenario.summary |} in
  let pg := Scenario.watch_page "abc123" (Bridge.FetchData (Some (Server.body r))) in
  let st' := snd (Popup.generateNotes_click Scenario.render
                    (Popup.transport_of (Bridge.onMessage pg Scenario.getTranscript))
                    Scenario.fresh_popup) in
  Popup.storage st' = {[ "abc123" := Scenario.summary ]}
  /\ Download.downloadBtn_click "abc123" st'
     = Some {| Download.content := Scenario.summary;
               Download.mime := "text/markdown";
               Download.filename := "youtube-notes.md" |}.
Proof.
  intros h r pg st'.
  destruct (summary_reaches_store Server.NotesOnly h (Some "abc123") pg "abc123"
              Scenario.render Scenario.fresh_popup eq_refl)
    with (r := r) as (out & errout & transcript & summary & _ & _ & Hg & Hok & _);
    [discriminate | reflexivity | reflexivity | reflexivity |].
  injection Hg as <-.
  destruct Hok as (Hst & Hd); [discriminate|].
  fold st' in Hst, Hd. split; [rewrite Hst; reflexivity | exact Hd].
Defined.

(** * Further properties of the popup *)

Lemma load_cases (marked_parse : string -> string) (id : string) (st : Popup.St) :
  Popup.DOMContentLoaded marked_parse id st
  = (Normal tt,
     if truthy (Popup.storage st !! id) then
       {| Popup.storage := Popup.storage st;
          Popup.set_calls := Popup.set_calls st;
          Popup.notesOutput :=
            Popup.InnerHTML (marked_parse (template (Popup.storage st !! id)));
          Popup.loading_display := Popup.loading_display st;
          Popup.generate_disabled := Popup.generate_disabled st;
          Popup.download_hidden := false |}
     else st).
Proof.
  unfold Popup.DOMContentLoaded, bind, get.
  destruct (truthy (Popup.storage st !! id)); reflexivity.
Qed.

Lemma click_cases (marked_parse : string -> string) (t : Popup.Transport) (st : Popup.St) :
  snd (Popup.generateNotes_click marked_parse t st)
  = match t with
    | Popup.Answered r =>
        if truthy (notes r) then
          {| Popup.storage :=
               <[ template (videoId r) := template (notes r) ]> (Popup.storage st);
             Popup.set_calls :=
               Popup.set_calls st ++ [(template (videoId r), template (notes r))];
             Popup.notesOutput := Popup.InnerHTML (marked_parse (template (notes r)));
             Popup.loading_display := "none";
             Popup.generate_disabled := false;
             Popup.download_hidden := false |}
        else
          {| Popup.storage := Popup.storage st;
             Popup.set_calls := Popup.set_calls st;
             Popup.notesOutput :=
               if truthy (error r) then Popup.InnerText (template (error r))
               else Popup.InnerHTML EmptyString;
             Popup.loading_display := "none";
             Popup.generate_disabled := false;
             Popup.download_hidden := true |}
    | Popup.ChannelError message =>
        {| Popup.storage := Popup.storage st;
           Popup.set_calls := Popup.set_calls st;
           Popup.notesOutput := Popup.InnerText ("Error: " +:+ message);
           Popup.loading_display := "none";
           Popup.generate_disabled := false;
           Popup.download_hidden := true |}
    | Popup.Silent =>
        {| Popup.storage := Popup.storage st;
           Popup.set_calls := Popup.set_calls st;
           Popup.notesOutput := Popup.InnerHTML EmptyString;
           Popup.loading_display := "block";
           Popup.generate_disabled := true;
           Popup.download_hidden := true |}
    end.
Proof.
  rewrite click_deliver. destruct t as [r|message|]; cbn [Popup.deliver].
  - destruct (truthy (notes r)) eqn:Hn.
    + rewrite callback_notes by exact Hn. reflexivity.
    + rewrite callback_no_notes by exact Hn. reflexivity.
  - rewrite callback_lastError. reflexivity.
  - reflexivity.
Qed.

(** X13: after a failed run the note cached for the video is still in the
    store, but the popup no longer shows it and the download button stays
    hidden, although the download handler would still serve the note;
    reopening the popup brings both back, the store untouched. *)
Theorem failed_run_hides_cached_note
    (marked_parse : string -> string) (st : Popup.St) (t : Popup.Transport)
    (id note : string) :
  Popup.storage st !! id = Some note ->
  note <> EmptyString ->
  Session.failed t ->
  let st' := snd (Popup.generateNotes_click marked_parse t st) in
  let st'' := snd (Popup.DOMContentLoaded marked_parse id (Session.opened st')) in
  Popup.download_hidden st' = true
  /\ ((exists text, Popup.notesOutput st' = Popup.InnerText text)
      \/ Popup.notesOutput st' = Popup.InnerHTML EmptyString)
  /\ Popup.storage st' = Popup.storage st
  /\ Download.downloadBtn_click id st'
     = Some {| Download.content := note;
               Download.mime := "text/markdown";
               Download.filename := "youtube-notes.md" |}
  /\ Popup.download_hidden st'' = false
  /\ Popup.notesOutput st'' = Popup.InnerHTML (marked_parse note)
  /\ Popup.storage st'' = Popup.storage st.
Proof.
  intros Hid Hnote Hfail st' st''.
  assert (Tn : truthy (Some note) = true) by (destruct note; [contradiction | reflexivity]).
  assert (Hst : Popup.storage st' = Popup.storage st
                /\ Popup.download_hidden st' = true
                /\ ((exists text, Popup.notesOutput st' = Popup.InnerText text)
                    \/ Popup.notesOutput st' = Popup.InnerHTML EmptyString)).
  { subst st'. rewrite click_cases. destruct t as [r|message|]; cbn in Hfail.
    - rewrite Hfail. cbn [Popup.storage Popup.download_hidden Popup.notesOutput].
      split; [reflexivity|]. split; [reflexivity|].
      destruct (truthy (error r)); eauto.
    - cbn [Popup.storage Popup.download_hidden Popup.notesOutput].
      split; [reflexivity|]. split; [reflexivity|]. eauto.
    - contradiction. }
  destruct Hst as (Hs & Hh & Ho).
  split; [exact Hh|]. split; [exact Ho|]. split; [exact Hs|]. split.
  - unfold Download.downloadBtn_click. rewrite Hs, Hid, Tn. reflexivity.
  - subst st''. rewrite load_cases. cbn [snd Session.opened Popup.storage].
    rewrite Hs, Hid, Tn. cbn. split; [reflexivity|]. split; reflexivity.
Qed.

Lemma failed_run_hides_cached_note_witness :
  let st := {| Popup.storage := {[ "abc123" := "- old note" ]};
               Popup.set_calls := [];
               Popup.notesOutput := Popup.InnerHTML (Scenario.render "- old note");
               Popup.loading_display := EmptyString;
               Popup.generate_disabled := false;
               Popup.download_hidden := false |} in
  let st' := snd (Popup.generateNotes_click Scenario.render
                    (Popup.Answered (error_obj "Backend error.")) st) in
  Popup.download_hidden st' = true
  /\ Download.downloadBtn_click "abc123" st'
     = Some {| Download.content := "- old note";
               Download.mime := "text/markdown";
               Download.filename := "youtube-notes.md" |}
  /\ Popup.download_hidden
       (snd (Popup.DOMContentLoaded Scenario.render "abc123" (Session.opened st')))
     = false.
Proof.
  intros st st'.
  destruct (failed_run_hides_cached_note Scenario.render st
              (Popup.Answered (error_obj "Backend error.")) "abc123" "- old note")
    as (Hh & _ & _ & Hd & Hh' & _); [reflexivity | discriminate | reflexivity |].
  split; [exact Hh|]. split; [exact Hd | exact Hh'].
Defined.

(** X14: notes of different videos do not disturb each other.  Generations
    for two distinct ids leave the same store in either order; each id holds
    its own note, and reopening the popup on the first video shows the first
    note although the second was generated later. *)
Theorem distinct_videos_are_independent
    (marked_parse : string -> string) (st : Popup.St) (r1 r2 : Obj) (a b : string) :
  videoId r1 = Some a -> videoId r2 = Some b -> a <> b ->
  truthy (notes r1) = true -> truthy (notes r2) = true ->
  let click := fun r s => snd (Popup.generateNotes_click marked_parse (Popup.Answered r) s) in
  let s12 := click r2 (click r1 st) in
  let s21 := click r1 (click r2 st) in
  Popup.storage s12 = Popup.storage s21
  /\ Popup.storage s12 !! a = notes r1
  /\ Popup.storage s12 !! b = notes r2
  /\ Popup.notesOutput
       (snd (Popup.DOMContentLoaded marked_parse a (Session.opened s12)))
     = Popup.InnerHTML (marked_parse (template (notes r1))).
Proof.
  intros Ha Hb Hab Hn1 Hn2 click s12 s21.
  assert (E12 : Popup.storage s12
                = <[ b := template (notes r2) ]>
                    (<[ a := template (notes r1) ]> (Popup.storage st))).
  { subst s12 click. cbn beta. rewrite !click_cases, Hn1, Hn2. cbn. now rewrite Ha, Hb. }
  assert (E21 : Popup.storage s21
                = <[ a := template (notes r1) ]>
                    (<[ b := template (notes r2) ]> (Popup.storage st))).
  { subst s21 click. cbn beta. rewrite !click_cases, Hn1, Hn2. cbn. now rewrite Ha, Hb. }
  assert (La : Popup.storage s12 !! a = notes r1).
  { rewrite E12, lookup_insert_ne by congruence.
    rewrite lookup_insert_eq. symmetry. now apply truthy_template. }
  split; [rewrite E12, E21; now apply insert_insert_ne|].
  split; [exact La|]. split.
  - rewrite E12, lookup_insert_eq. symmetry. now apply truthy_template.
  - rewrite load_cases. cbn [snd Session.opened Popup.storage].
    rewrite La, Hn1. reflexivity.
Qed.

Lemma distinct_videos_are_independent_witness :
  let r1 := notes_obj "- first video" "abc123" in
  let r2 := notes_obj "- second video" "xyz789" in
  let click := fun r s =>
    snd (Popup.generateNotes_click Scenario.render (Popup.Answered r) s) in
  Popup.storage (click r2 (click r1 Scenario.fresh_popup)) !! "abc123"
    = Some "- first video"
  /\ Popup.storage (click r2 (click r1 Scenario.fresh_popup))
     = Popup.storage (click r1 (click r2 Scenario.fresh_popup)).
Proof.
  intros r1 r2 click.
  destruct (distinct_videos_are_independent Scenario.render Scenario.fresh_popup
              r1 r2 "abc123" "xyz789")
    as (Hc & Ha & _); try reflexivity; try discriminate.
  split; [exact Ha | exact Hc].
Defined.

(** * A session of the popup on one video *)

Section SessionInvariants.

Variable marked_parse : string -> string.
Variable cur : string.

Abbreviation listener_transport pg :=
  (Popup.transport_of (Bridge.onMessage pg {| Bridge.action := "getTranscript" |})).

(** What the listener hands to the popup on a page showing [cur]: notes
    under the id [cur], an error without notes, or nothing yet. *)
Lemma listener_transport_cases (pg : Bridge.Page) :
  Bridge.URLSearchParams_get "v" (Bridge.location_search pg) = Some cur ->
  (exists n, listener_transport pg = Popup.Answered (notes_obj n cur)
             /\ truthy (Some n) = true)
  \/ (exists msg, listener_transport pg = Popup.Answered (error_obj msg))
  \/ listener_transport pg = Popup.Silent.
Proof.
  intros Hv. unfold Popup.transport_of, Bridge.onMessage.
  cbn [Bridge.action String.eqb Ascii.eqb Bool.eqb]. rewrite Hv.
  destruct (truthy (Some cur)) eqn:Tv; cbn [negb Bridge.responded Bridge.returned_true].
  - cbn [template]. destruct (Bridge.fetch pg (Bridge.url_of cur)) as [[d|]|e|]; eauto.
    unfold Bridge.on_data. destruct (truthy (notes d)) eqn:Hn; eauto.
    left. destruct (truthy_Some_inv _ Hn) as (c & n & Hd). rewrite Hd.
    exists (String c n). split; reflexivity.
  - eauto.
Qed.

Abbreviation shows_stored_note := (Session.shows_stored_note marked_parse cur).

Lemma shows_after_load (st : Popup.St) :
  let st' := snd (Popup.DOMContentLoaded marked_parse cur (Session.opened st)) in
  Popup.download_hidden st' = false -> shows_stored_note st'.
Proof.
  intros st'. subst st'. rewrite load_cases. cbn [snd Session.opened Popup.storage].
  destruct (truthy (Popup.storage st !! cur)) eqn:Hn; [|discriminate].
  intros _. destruct (truthy_Some_inv _ Hn) as (c & n & Hd).
  exists (String c n). unfold Download.downloadBtn_click. cbn [Popup.storage Popup.notesOutput].
  rewrite Hd. split; [discriminate|]. repeat split.
Qed.

Lemma shows_after_click (t : Popup.Transport) (st : Popup.St) :
  (forall r, t = Popup.Answered r -> truthy (notes r) = true -> videoId r = Some cur) ->
  let st' := snd (Popup.generateNotes_click marked_parse t st) in
  Popup.download_hidden st' = false -> shows_stored_note st'.
Proof.
  intros Hid st'. subst st'. rewrite click_cases.
  destruct t as [r|message|]; try discriminate.
  destruct (truthy (notes r)) eqn:Hn; [|discriminate].
  intros _. rewrite (Hid r eq_refl Hn). cbn [template].
  destruct (truthy_Some_inv _ Hn) as (c & n & Hd). rewrite Hd. cbn [template].
  exists (String c n). unfold Download.downloadBtn_click. cbn [Popup.storage Popup.notesOutput].
  rewrite lookup_insert_eq. split; [discriminate|]. repeat split.
Qed.

(** X15: throughout a session on one video, whenever the download button is
    visible the popup shows a stored, non-empty note of that video, and a
    click on the button downloads exactly that note, as markdown, under the
    name [youtube-notes.md]. *)
Theorem download_visible_means_note_shown (st0 st : Popup.St) :
  Session.reachable marked_parse cur st0 st ->
  Popup.download_hidden st = false ->
  exists note,
    note <> EmptyString
    /\ Popup.storage st !! cur = Some note
    /\ Popup.notesOutput st = Popup.InnerHTML (marked_parse note)
    /\ Download.downloadBtn_click cur st
       = Some {| Download.content := note;
                 Download.mime := "text/markdown";
                 Download.filename := "youtube-notes.md" |}.
Proof.
  intros Hreach. change (Popup.download_hidden st = false -> shows_stored_note st).
  induction Hreach as [|st st' Hreach IH Hstep].
  - apply shows_after_load.
  - destruct Hstep as [st | pg st Hv Hen | message st Hen].
    + apply shows_after_load.
    + apply shows_after_click. intros r Hr Hn.
      destruct (listener_transport_cases pg Hv) as [(n & Ht & _) | [(msg & Ht) | Ht]];
        rewrite Ht in Hr; try discriminate; injection Hr as <-; [reflexivity | discriminate].
    + apply shows_after_click. intros r Hr. discriminate.
Qed.

(** X16: throughout a session on one video the store only changes at that
    video's key: the notes of every other video are as they were, no entry is
    ever removed, and if no stored note was empty at the start none is
    afterwards. *)
Theorem session_keeps_other_notes (st0 st : Popup.St) :
  Session.reachable marked_parse cur st0 st ->
  (forall id, id <> cur -> Popup.storage st !! id = Popup.storage st0 !! id)
  /\ (forall id, is_Some (Popup.storage st0 !! id) -> is_Some (Popup.storage st !! id))
  /\ (map_Forall (fun _ note => note <> EmptyString) (Popup.storage st0) ->
      map_Forall (fun _ note => note <> EmptyString) (Popup.storage st)).
Proof.
  assert (Hload : forall s,
            Popup.storage (snd (Popup.DOMContentLoaded marked_parse cur (Session.opened s)))
            = Popup.storage s).
  { intros s. rewrite load_cases. cbn [snd Session.opened Popup.storage].
    destruct (truthy (Popup.storage s !! cur)); reflexivity. }
  assert (Hkeep : forall s : Popup.St,
            (forall id, id <> cur -> Popup.storage s !! id = Popup.storage s !! id)
            /\ (forall id, is_Some (Popup.storage s !! id) -> is_Some (Popup.storage s !! id))
            /\ (map_Forall (fun _ note => note <> EmptyString) (Popup.storage s) ->
                map_Forall (fun _ note => note <> EmptyString) (Popup.storage s)))
    by (intros s; auto).
  assert (Hins : forall (s : Popup.St) n, n <> EmptyString ->
            (forall id, id <> cur ->
               <[ cur := n ]> (Popup.storage s) !! id = Popup.storage s !! id)
            /\ (forall id, is_Some (Popup.storage s !! id) ->
                  is_Some (<[ cur := n ]> (Popup.storage s) !! id))
            /\ (map_Forall (fun _ note => note <> EmptyString) (Popup.storage s) ->
                map_Forall (fun _ note => note <> EmptyString)
                  (<[ cur := n ]> (Popup.storage s)))).
  { intros s n Hn. split; [|split].
    - intros id Hne. now apply lookup_insert_ne.
    - intros id Hsome. apply lookup_insert_is_Some.
      destruct (decide (cur = id)); auto.
    - intros Hall. now apply map_Forall_insert_2. }
  intros Hreach. induction Hreach as [|st st' Hreach IH Hstep].
  - rewrite Hload. apply Hkeep.
  - destruct IH as (IH1 & IH2 & IH3).
    assert (Hstep' :
              (forall id, id <> cur -> Popup.storage st' !! id = Popup.storage st !! id)
              /\ (forall id, is_Some (Popup.storage st !! id) ->
                    is_Some (Popup.storage st' !! id))
              /\ (map_Forall (fun _ note => note <> EmptyString) (Popup.storage st) ->
                  map_Forall (fun _ note => note <> EmptyString) (Popup.storage st'))).
    { destruct Hstep as [st | pg st Hv Hen | message st Hen].
      - rewrite Hload. apply Hkeep.
      - rewrite click_cases.
        destruct (listener_transport_cases pg Hv) as [(n & -> & Tn) | [(msg & ->) | ->]].
        + cbn [notes_obj notes]. rewrite Tn. cbn [Popup.storage notes_obj videoId template].
          apply Hins. destruct n; [discriminate | discriminate].
        + cbn [error_obj notes truthy Popup.storage]. apply Hkeep.
        + cbn [Popup.storage]. apply Hkeep.
      - rewrite click_cases. cbn [Popup.storage]. apply Hkeep. }
    destruct Hstep' as (S1 & S2 & S3).
    split; [|split].
    + intros id Hne. rewrite (S1 id Hne). now apply IH1.
    + intros id Hsome. apply S2. now apply IH2.
    + intros Hall. apply S3. now apply IH3.
Qed.

End SessionInvariants.

Lemma download_visible_means_note_shown_witness :
  let pg := Scenario.watch_page "abc123"
              (Bridge.FetchData (Some (notes_obj "- note" "another-id"))) in
  let st1 := snd (Popup.DOMContentLoaded Scenario.render "abc123"
                    (Session.opened Scenario.fresh_popup)) in
  let st2 := snd (Popup.generateNotes_click Scenario.render
                    (Popup.transport_of (Bridge.onMessage pg Scenario.getTranscript)) st1) in
  Popup.download_hidden st1 = true
  /\ exists note,
       note <> EmptyString
       /\ Popup.storage st2 !! "abc123" = Some note
       /\ Popup.notesOutput st2 = Popup.InnerHTML (Scenario.render note)
       /\ Download.downloadBtn_click "abc123" st2
          = Some {| Download.content := note;
                    Download.mime := "text/markdown";
                    Download.filename := "youtube-notes.md" |}.
Proof.
  intros pg st1 st2. split; [reflexivity|].
  apply (download_visible_means_note_shown Scenario.render "abc123"
           Scenario.fresh_popup st2); [|reflexivity].
  apply (Session.reach_step Scenario.render "abc123" Scenario.fresh_popup st1 st2).
  - apply Session.reach_open.
  - exact (Session.step_generate Scenario.render "abc123" pg st1 eq_refl eq_refl).
Defined.

Lemma session_keeps_other_notes_witness :
  let st0 := {| Popup.storage := {[ "xyz789" := "- other video" ]};
                Popup.set_calls := [];
                Popup.notesOutput := Popup.InnerHTML EmptyString;
                Popup.loading_display := EmptyString;
                Popup.generate_disabled := false;
                Popup.download_hidden := true |} in
  let pg := Scenario.watch_page "abc123"
              (Bridge.FetchData (Some (notes_obj "- note" "xyz789"))) in
  let st1 := snd (Popup.DOMContentLoaded Scenario.render "abc123" (Session.opened st0)) in
  let st2 := snd (Popup.generateNotes_click Scenario.render
                    (Popup.transport_of (Bridge.onMessage pg Scenario.getTranscript)) st1) in
  Popup.storage st2 !! "xyz789" = Some "- other video"
  /\ is_Some (Popup.storage st2 !! "xyz789")
  /\ map_Forall (fun _ note => note <> EmptyString) (Popup.storage st2).
Proof.
  intros st0 pg st1 st2.
  assert (Hreach : Session.reachable Scenario.render "abc123" st0 st2).
  { apply (Session.reach_step Scenario.render "abc123" st0 st1 st2).
    - apply Session.reach_open.
    - exact (Session.step_generate Scenario.render "abc123" pg st1 eq_refl eq_refl). }
  destruct (session_keeps_other_notes Scenario.render "abc123" st0 st2 Hreach)
    as (Hother & Hsome & Hall).
  split; [|split].
  - rewrite (Hother "xyz789"); [reflexivity | discriminate].
  - apply Hsome. cbn. eexists. reflexivity.
  - apply Hall. cbn. apply map_Forall_singleton. discriminate.
Defined.

(** X17: every answer of the page listener is shown.  The popup's callback
    completes and either renders non-empty notes and offers the download, or
    shows a non-empty error message and offers none: the branch of the
    callback that shows nothing, for an answer with neither notes nor error,
    is never taken on an answer of the listener. *)
Theorem every_answer_is_displayed
    (pg : Bridge.Page) (m : Bridge.Message) (r : Obj)
    (marked_parse : string -> string) (st : Popup.St) :
  Bridge.responded (Bridge.onMessage pg m) = Some r ->
  let out := Popup.generateNotes_click marked_parse (Popup.Answered r) st in
  fst out = Normal tt
  /\ Popup.loading_display (snd out) = "none"
  /\ Popup.generate_disabled (snd out) = false
  /\ ((exists n, n <> EmptyString
                 /\ Popup.notesOutput (snd out) = Popup.InnerHTML (marked_parse n)
                 /\ Popup.download_hidden (snd out) = false)
      \/ (exists msg, msg <> EmptyString
                      /\ Popup.notesOutput (snd out) = Popup.InnerText msg
                      /\ Popup.download_hidden (snd out) = true)).
Proof.
  intros Hr out. subst out.
  assert (Hshape : (exists n, n <> EmptyString /\ notes r = Some n)
                   \/ (exists msg, msg <> EmptyString /\ r = error_obj msg)).
  { revert Hr. unfold Bridge.onMessage.
    destruct (String.eqb (Bridge.action m) "getTranscript");
      cbn [Bridge.responded]; [|discriminate].
    destruct (truthy (Bridge.URLSearchParams_get "v" (Bridge.location_search pg)));
      cbn [negb Bridge.responded].
    - destruct (Bridge.fetch pg _) as [[d|]|e|]; try discriminate.
      + unfold Bridge.on_data. destruct (notes d) as [[|c n]|] eqn:Hn; cbn [truthy].
        1,3: intros [= <-]; right; exists (js_or (error d) "No notes returned.");
             split; [apply js_or_nonempty; discriminate | reflexivity].
        intros [= <-]. left. exists (String c n). split; [discriminate | reflexivity].
      + intros [= <-]. right. exists "Backend error.". split; [discriminate | reflexivity].
      + intros [= <-]. right. exists "Backend error.". split; [discriminate | reflexivity].
    - intros [= <-]. right. exists "No video ID found". split; [discriminate | reflexivity]. }
  rewrite click_deliver. cbn [Popup.deliver].
  destruct Hshape as [(n & Hn & Hnotes) | (msg & Hmsg & ->)].
  - assert (Tn : truthy (notes r) = true)
      by (rewrite Hnotes; destruct n; [contradiction | reflexivity]).
    rewrite callback_notes by exact Tn. cbn [fst snd Popup.loading_display
      Popup.generate_disabled Popup.notesOutput Popup.download_hidden].
    repeat (split; [reflexivity|]). left. exists n. rewrite Hnotes. auto.
  - rewrite callback_no_notes by reflexivity.
    cbn [fst snd Popup.loading_display Popup.generate_disabled Popup.notesOutput
         Popup.download_hidden error_obj error].
    repeat (split; [reflexivity|]). right. exists msg.
    destruct msg; [contradiction|]. auto.
Qed.

Lemma every_answer_is_displayed_witness :
  let pg := Scenario.watch_page "abc123" (Bridge.FetchData None) in
  let out := Popup.generateNotes_click Scenario.render
               (Popup.Answered (error_obj "Backend error.")) Scenario.fresh_popup in
  fst out = Normal tt
  /\ Popup.notesOutput (snd out) = Popup.InnerText "Backend error.".
Proof.
  intros pg out.
  destruct (every_answer_is_displayed pg Scenario.getTranscript
              (error_obj "Backend error.") Scenario.render Scenario.fresh_popup eq_refl)
    as (Hc & _ & _ & _).
  split; [exact Hc | reflexivity].
Defined.

Lemma store_then_load_witness :
  let r := notes_obj ("# Title" +:+ nl +:+ "- point") "abc123" in
  let st1 := snd (Popup.sendMessage_callback Scenario.render None (Some r)
                    Scenario.fresh_popup) in
  Popup.storage st1 !! "abc123" = Some ("# Title" +:+ nl +:+ "- point")
  /\ Popup.notesOutput (snd (Popup.DOMContentLoaded Scenario.render "abc123" st1))
     = Popup.InnerHTML (Scenario.render ("# Title" +:+ nl +:+ "- point")).
Proof.
  intros r st1.
  exact (store_then_load Scenario.render Scenario.fresh_popup r "abc123" eq_refl eq_refl).
Defined.

(** X19: throughout a session the loading indicator is on exactly when the
    generate button is disabled, and in that state, a run in flight, the
    output is empty and the download button hidden. *)
Theorem busy_indicator_matches_button
    (marked_parse : string -> string) (cur : string) (st0 st : Popup.St) :
  Session.reachable marked_parse cur st0 st ->
  (Popup.generate_disabled st = true <-> Popup.loading_display st = "block")
  /\ (Popup.generate_disabled st = true ->
      Popup.notesOutput st = Popup.InnerHTML EmptyString
      /\ Popup.download_hidden st = true).
Proof.
  assert (Hload : forall s,
            let s' := snd (Popup.DOMContentLoaded marked_parse cur (Session.opened s)) in
            Popup.generate_disabled s' = false /\ Popup.loading_display s' = EmptyString).
  { intros s s'. subst s'. rewrite load_cases. cbn [snd Session.opened Popup.storage].
    destruct (truthy (Popup.storage s !! cur)); split; reflexivity. }
  assert (Hidle : forall s : Popup.St,
            Popup.generate_disabled s = false ->
            Popup.loading_display s = EmptyString \/ Popup.loading_display s = "none" ->
            (Popup.generate_disabled s = true <-> Popup.loading_display s = "block")
            /\ (Popup.generate_disabled s = true ->
                Popup.notesOutput s = Popup.InnerHTML EmptyString
                /\ Popup.download_hidden s = true)).
  { intros s Hd Hl. rewrite Hd. split; [split|]; try discriminate.
    intros Hb. destruct Hl as [Hl|Hl]; rewrite Hl in Hb; discriminate. }
  assert (Hclick : forall t s,
            let s' := snd (Popup.generateNotes_click marked_parse t s) in
            (Popup.generate_disabled s' = true <-> Popup.loading_display s' = "block")
            /\ (Popup.generate_disabled s' = true ->
                Popup.notesOutput s' = Popup.InnerHTML EmptyString
                /\ Popup.download_hidden s' = true)).
  { intros t s s'. subst s'. rewrite click_cases.
    destruct t as [r|message|]; [destruct (truthy (notes r))| |].
    1-3: apply Hidle; [reflexivity | right; reflexivity].
    cbn. repeat split. }
  intros Hreach. induction Hreach as [|st st' Hreach IH Hstep].
  - destruct (Hload st0) as (Hd & Hl). apply Hidle; auto.
  - destruct Hstep as [st | pg st Hv Hen | message st Hen].
    + destruct (Hload st) as (Hd & Hl). apply Hidle; auto.
    + apply Hclick.
    + apply Hclick.
Qed.

Lemma busy_indicator_matches_button_witness :
  let pg := Scenario.watch_page "abc123" Bridge.FetchPending in
  let st1 := snd (Popup.DOMContentLoaded Scenario.render "abc123"
                    (Session.opened Scenario.fresh_popup)) in
  let st2 := snd (Popup.generateNotes_click Scenario.render
                    (Popup.transport_of (Bridge.onMessage pg Scenario.getTranscript)) st1) in
  Popup.loading_display st2 = "block"
  /\ Popup.notesOutput st2 = Popup.InnerHTML EmptyString
  /\ Popup.download_hidden st2 = true.
Proof.
  intros pg st1 st2.
  assert (Hreach : Session.reachable Scenario.render "abc123" Scenario.fresh_popup st2).
  { apply (Session.reach_step Scenario.render "abc123" Scenario.fresh_popup st1 st2).
    - apply Session.reach_open.
    - exact (Session.step_generate Scenario.render "abc123" pg st1 eq_refl eq_refl). }
  destruct (busy_indicator_matches_button Scenario.render "abc123"
              Scenario.fresh_popup st2 Hreach) as (Hiff & Hbusy).
  split; [apply Hiff; reflexivity | apply Hbusy; reflexivity].
Defined.
